(** * py-gpt: the LangChain dispatcher [Chain.call] and the mode controller

    Shallow embedding of
    - [pygpt_net/core/chain/__init__.py]  (class [Chain], method [call]),
    - [pygpt_net/controller/mode.py]      (class [Mode], methods [select],
      [set], [change_locked], [select_default], [reset_current],
      [hook_global_temperature]),
    - [pygpt_net/controller/idx/__init__.py]  (class [Idx]).

    Both are sequential glue code: they read a few attributes, call into
    objects that live elsewhere (the LangChain wrappers, the debug logger,
    the other controllers, the configuration store) and write the results
    back into shared objects.  The embedding threads the state of those
    objects explicitly and keeps a log of every call the code makes, in
    program order, so that "is invoked", "receives", "is never reached" are
    statements about that log. *)

From Stdlib Require Import ZArith Ascii.
From stdpp Require Import base option list strings gmap.

Open Scope string_scope.

(** ** Python values that flow through [Chain.call] *)

(** What a wrapper may hand back, and what ends up in the context item:
    [None], a [str] (the completion wrapper's answer), a message object
    exposing a [content] attribute (the chat wrapper's answer), or the chunk
    iterator returned in stream mode. *)
Inductive value : Type :=
| PyNone
| PyStr (s : string)
| PyMessage (content : value)
| PyStream (chunks : list string).

(** Instances of Python's [Exception]: the class name and the message. *)
Inductive exn : Type :=
| Exn (cls : string) (msg : string).

(** [v is None] *)
Definition is_none (v : value) : bool :=
  match v with PyNone => true | _ => false end.

(** [v.content]: only a message object has the attribute, on any other
    value the access raises [AttributeError]. *)
Definition getattr_content (v : value) : exn + value :=
  match v with
  | PyMessage c => inr c
  | _ => inl (Exn "AttributeError" "content")
  end.

(** ** The [langchain] dictionary of a model *)

(** Values found in [model.langchain]: the provider name (a [str]), the list
    of supported sub-modes (a list of [str]), the provider arguments (a list
    of dictionaries). *)
Inductive lc_value : Type :=
| LcStr (s : string)
| LcList (items : list string)
| LcArgs (items : list (gmap string string)).

(** [x in s] for two strings: [x] occurs in [s] as a substring. *)
Fixpoint str_contains (x s : string) : bool :=
  String.prefix x s ||
  match s with
  | EmptyString => false
  | String _ s' => str_contains x s'
  end.

(** Python's [x in v] for a string [x]: substring test on a [str],
    membership on a list of strings, and never true on a list of
    dictionaries (a [str] is not equal to a [dict]). *)
Definition py_in (x : string) (v : lc_value) : bool :=
  match v with
  | LcStr s => str_contains x s
  | LcList items => bool_decide (x ∈ items)
  | LcArgs _ => false
  end.

Module ModelItem.
Record t : Type := mk {
  id : string;
  langchain : gmap string lc_value
}.
End ModelItem.

(** ** The context item *)

Module CtxItem.
(** One conversational turn: input and output text, speaker names, token
    counts, and the stream iterator of a streamed answer. *)
Record t : Type := mk {
  input : value;
  output : value;
  input_name : option string;
  output_name : option string;
  input_tokens : Z;
  output_tokens : Z;
  stream : value
}.

(** [ctx.stream = v] *)
Definition set_stream (v : value) (c : t) : t :=
  mk (input c) (output c) (input_name c) (output_name c)
     (input_tokens c) (output_tokens c) v.

(** [ctx.input_tokens = n] *)
Definition set_input_tokens (n : Z) (c : t) : t :=
  mk (input c) (output c) (input_name c) (output_name c)
     n (output_tokens c) (stream c).

(** Modelled from the spec: [CtxItem.set_output] is defined in
    [pygpt_net/item/ctx.py], which is not among the sources verified here.  The
    context item records the output text of the turn and the speaker
    names; [set_output(output, name)] stores the output text together
    with the name of the speaker that produced it. *)
Definition set_output (out : value) (name : option string) (c : t) : t :=
  mk (input c) out (input_name c) name
     (input_tokens c) (output_tokens c) (stream c).
End CtxItem.

(** ** The bridge context *)

Module BridgeContext.
(** The attributes [Chain.call] reads off its [context] argument.  [ctx]
    may be [None]. *)
Record t : Type := mk {
  ctx : option CtxItem.t;
  history : list CtxItem.t;
  model : ModelItem.t;
  prompt : string;
  stream : bool;
  system_prompt : string
}.
End BridgeContext.

(** Keyword arguments of a wrapper's [send]. *)
Module SendArgs.
Record t : Type := mk {
  prompt : string;
  system_prompt : string;
  model : ModelItem.t;
  history : list CtxItem.t;
  stream : bool;
  ai_name : option string;
  user_name : option string
}.
End SendArgs.

(** ** [Chain.call] *)

Module ChainCore.

(** The two wrapper objects held by a [Chain]: [self.chat] and
    [self.completion]. *)
Inductive wrapper_name : Type := Chat | Completion.

(** Calls made by [Chain.call] on other objects, in program order. *)
Inductive event : Type :=
| Send (w : wrapper_name) (args : SendArgs.t)
| GetUsedTokens (w : wrapper_name)
| DebugLog (e : exn)
| SetOutput (out : value) (name : option string).

Section WithWorld.

(** [World] is the state of everything [Chain.call] reaches only through
    method calls: the two wrappers with the LLM behind them and the debug
    logger of the window.  [empty_ctx] is the item built by [CtxItem()]. *)
Context {World : Type} (empty_ctx : CtxItem.t).

(** A LangChain wrapper ([Chat] or [Completion]): [send] returns a
    response or raises, [get_used_tokens] reports a token count or
    raises; both may change the world. *)
Record Wrapper : Type := mkWrapper {
  send : SendArgs.t -> World -> (exn + value) * World;
  get_used_tokens : World -> (exn + Z) * World
}.

(** The [Chain] object: [self.window.core.debug.log], [self.chat] and
    [self.completion]. *)
Record Chain : Type := mkChain {
  debug_log : exn -> World -> World;
  chat : Wrapper;
  completion : Wrapper
}.

(** State threaded through a call: the outside world, the object the
    local variable [ctx] refers to, and the log of calls made so far. *)
Record state : Type := mkState {
  world : World;
  item : CtxItem.t;
  events : list event
}.

(** Computations that return a value or raise. *)
Definition M (A : Type) : Type := state -> (exn + A) * state.

Definition ret {A} (a : A) : M A := fun s => (inr a, s).

Definition raise {A} (e : exn) : M A := fun s => (inl e, s).

Definition bind {A B} (m : M A) (k : A -> M B) : M B :=
  fun s =>
    match m s with
    | (inr a, s') => k a s'
    | (inl e, s') => (inl e, s')
    end.

(** [try: body except Exception as e: handler(e)] *)
Definition try_except {A} (body : M A) (handler : exn -> M A) : M A :=
  fun s =>
    match body s with
    | (inr a, s') => (inr a, s')
    | (inl e, s') => handler e s'
    end.

Definition wrapper_of (self : Chain) (w : wrapper_name) : Wrapper :=
  match w with Chat => chat self | Completion => completion self end.

(** [self.<w>.send( ... )] *)
Definition call_send (self : Chain) (w : wrapper_name)
    (args : SendArgs.t) : M value :=
  fun s =>
    let '(r, wd) := send (wrapper_of self w) args (world s) in
    (r, mkState wd (item s) (events s ++ [Send w args])).

(** [self.<w>.get_used_tokens()] *)
Definition call_get_used_tokens (self : Chain) (w : wrapper_name) : M Z :=
  fun s =>
    let '(r, wd) := get_used_tokens (wrapper_of self w) (world s) in
    (r, mkState wd (item s) (events s ++ [GetUsedTokens w])).

(** [self.window.core.debug.log(e)] *)
Definition call_debug_log (self : Chain) (e : exn) : M unit :=
  fun s =>
    (inr tt, mkState (debug_log self e (world s)) (item s)
                     (events s ++ [DebugLog e])).

(** [ctx.stream = v] *)
Definition ctx_assign_stream (v : value) : M unit :=
  fun s =>
    (inr tt, mkState (world s) (CtxItem.set_stream v (item s)) (events s)).

(** [ctx.input_tokens = n] *)
Definition ctx_assign_input_tokens (n : Z) : M unit :=
  fun s =>
    (inr tt,
     mkState (world s) (CtxItem.set_input_tokens n (item s)) (events s)).

(** [ctx.set_output(out, name)] *)
Definition ctx_set_output (out : value) (name : option string) : M unit :=
  fun s =>
    (inr tt, mkState (world s) (CtxItem.set_output out name (item s))
                     (events s ++ [SetOutput out name])).

(** [response.content] *)
Definition content_of (response : value) : M value :=
  match getattr_content response with
  | inr c => ret c
  | inl e => raise e
  end.

Notation "x <- m ;; k" := (bind m (fun x => k))
  (at level 100, m at next level, right associativity).
Notation "m ;;; k" := (bind m (fun _ => k))
  (at level 100, right associativity).

(** Lines 49-56: the sub-mode named by the model's [langchain]
    dictionary. *)
Definition select_sub_mode (model : ModelItem.t) : string :=
  let sub_mode := "chat" in
  match ModelItem.langchain model !! "mode" with
  | Some modes =>
      if py_in "chat" modes then "chat"
      else if py_in "completion" modes then "completion"
      else sub_mode
  | None => sub_mode
  end.

(** The object the local variable [ctx] refers to (lines 40-43). *)
Definition ctx_of (context : BridgeContext.t) : CtxItem.t :=
  match BridgeContext.ctx context with
  | Some c => c
  | None => empty_ctx
  end.

(** Lines 45-106 of [Chain.call], run on the item [ctx] refers to. *)
Definition call_body (self : Chain) (context : BridgeContext.t)
    (ctx : CtxItem.t) : M bool :=
  let prompt := BridgeContext.prompt context in
  let system_prompt := BridgeContext.system_prompt context in
  let stream := BridgeContext.stream context in
  let model := BridgeContext.model context in
  let user_name := CtxItem.input_name ctx in
  let ai_name := CtxItem.output_name ctx in
  let response := PyNone in
  let used_tokens := 0%Z in
  let sub_mode := select_sub_mode model in
  let args :=
    SendArgs.mk prompt system_prompt model
                (BridgeContext.history context) stream ai_name user_name in
  r <- try_except
         (if String.eqb sub_mode "chat" then
            response <- call_send self Chat args ;;
            used_tokens <- call_get_used_tokens self Chat ;;
            ret (response, used_tokens)
          else if String.eqb sub_mode "completion" then
            response <- call_send self Completion args ;;
            used_tokens <- call_get_used_tokens self Completion ;;
            ret (response, used_tokens)
          else ret (response, used_tokens))
         (fun e => call_debug_log self e ;;; raise e) ;;
  let '(response, used_tokens) := r in
  if stream then
    ctx_assign_stream response ;;;
    ctx_assign_input_tokens used_tokens ;;;
    ctx_set_output (PyStr "") ai_name ;;;
    ret true
  else if is_none response then
    ret false
  else
    output <- (if String.eqb sub_mode "chat" then content_of response
               else if String.eqb sub_mode "completion" then ret response
               else ret PyNone) ;;
    ctx_set_output output ai_name ;;;
    ret true.

(** The keyword arguments [Chain.call] is expected to hand to [send]:
    the fields of the bridge context, and the speaker names of the item
    [ctx] refers to. *)
Definition send_args_of (context : BridgeContext.t) : SendArgs.t :=
  SendArgs.mk (BridgeContext.prompt context)
              (BridgeContext.system_prompt context)
              (BridgeContext.model context)
              (BridgeContext.history context)
              (BridgeContext.stream context)
              (CtxItem.output_name (ctx_of context))
              (CtxItem.input_name (ctx_of context)).

(** [Chain.call(context, extra)] started in world [w]: the outcome (the
    returned [bool] or the exception that propagates), and the final
    state. *)
Definition call (self : Chain) (context : BridgeContext.t)
    (extra : option (gmap string value)) (w : World)
    : (exn + bool) * state :=
  let ctx := ctx_of context in
  call_body self context ctx (mkState w ctx []).

End WithWorld.

End ChainCore.

(** ** The mode controller *)

Module ModeController.

(** Event names used by [mode.py]. *)
Inductive event_name : Type := MODE_SELECT | MODE_BEFORE.

(** [Event(name, data)] *)
Record Event : Type := mkEvent {
  name : event_name;
  data : gmap string value
}.

(** Calls made by [Mode.select] and [Mode.set] on other objects, in program
    order. *)
Inductive call : Type :=
| ModesGetByIdx (idx : Z)
| PresetsSelectDefault
| AssistantSelectById (id : string)
| AssistantSelectCurrent
| ConfigSet (key : string) (v : value)
| AttachmentUpdate
| CtxUpdateCtx
| UiUpdate
| UiStatus (msg : string)
| CtxUpdateLabelByCurrent
| Dispatch (ev : Event).

Definition is_config_set (c : call) : bool :=
  match c with ConfigSet _ _ => true | _ => false end.

Section WithWindow.

(** [Rest] is the part of the window object graph that the mode controller
    never touches itself. *)
Context {Rest : Type}.

(** The window as [Mode] sees it: the configuration store
    ([window.core.config]), the attribute
    [window.controller.chat.input.generating], the attributes
    [window.core.ctx.current] and [window.core.ctx.assistant], and the
    rest. *)
Record Window : Type := mkWindow {
  config : gmap string value;
  generating : bool;
  ctx_current : option Z;
  ctx_assistant : option string;
  rest : Rest
}.

(** Modelled from the spec: [Config.set] belongs to [pygpt_net/config.py],
    which is not among the sources verified here.  The controllers read
    and write configuration keys; [config.set(key, v)] writes [v] under
    [key]. *)
Definition config_set (key : string) (v : value) (w : Window) : Window :=
  mkWindow (<[key := v]> (config w)) (generating w)
           (ctx_current w) (ctx_assistant w) (rest w).

(** The other objects [Mode] calls into.  Each method may change any part
    of the window, the configuration included. *)
Record Env : Type := mkEnv {
  modes_get_by_idx : Z -> Window -> string;
  presets_select_default : Window -> Window;
  assistant_select_by_id : string -> Window -> Window;
  assistant_select_current : Window -> Window;
  attachment_update : Window -> Window;
  ctx_update_ctx : Window -> Window;
  ui_update : Window -> Window;
  ui_status : string -> Window -> Window;
  ctx_update_label_by_current : Window -> Window;
  dispatcher_dispatch : Event -> Window -> Window;
  trans : string -> string
}.

(** State threaded through the controller: the window and the log of
    calls made so far. *)
Record state : Type := mkState {
  window : Window;
  log : list call
}.

Definition M (A : Type) : Type := state -> A * state.

Definition ret {A} (a : A) : M A := fun s => (a, s).

Definition bind {A B} (m : M A) (k : A -> M B) : M B :=
  fun s => let '(a, s') := m s in k a s'.

(** A call [c] whose effect on the window is [f]. *)
Definition invoke (c : call) (f : Window -> Window) : M unit :=
  fun s => (tt, mkState (f (window s)) (log s ++ [c])).

(** Reading an attribute of the window. *)
Definition read {A} (f : Window -> A) : M A :=
  fun s => (f (window s), s).

Notation "x <- m ;; k" := (bind m (fun x => k))
  (at level 100, m at next level, right associativity).
Notation "m ;;; k" := (bind m (fun _ => k))
  (at level 100, right associativity).

Definition when (b : bool) (m : M unit) : M unit :=
  if b then m else ret tt.

Variable env : Env.

(** [Mode.change_locked] *)
Definition change_locked : M bool := read generating.

(** [Mode.set] *)
Definition set (mode : string) : M unit :=
  when (String.eqb mode "assistant")
    (invoke PresetsSelectDefault (presets_select_default env) ;;;
     current <- read ctx_current ;;
     assistant <- read ctx_assistant ;;
     match current, assistant with
     | Some _, Some a =>
         invoke (AssistantSelectById a) (assistant_select_by_id env a)
     | _, _ =>
         invoke AssistantSelectCurrent (assistant_select_current env)
     end) ;;;
  invoke (ConfigSet "mode" (PyStr mode)) (config_set "mode" (PyStr mode)) ;;;
  invoke (ConfigSet "model" (PyStr "")) (config_set "model" (PyStr "")) ;;;
  invoke (ConfigSet "preset" (PyStr "")) (config_set "preset" (PyStr "")) ;;;
  invoke AttachmentUpdate (attachment_update env) ;;;
  invoke CtxUpdateCtx (ctx_update_ctx env) ;;;
  invoke UiUpdate (ui_update env) ;;;
  invoke (UiStatus (trans env "status.started"))
         (ui_status env (trans env "status.started")) ;;;
  when (String.eqb mode "assistant")
    (invoke CtxUpdateLabelByCurrent (ctx_update_label_by_current env)).

(** The window after the updates that follow the three configuration
    writes of [Mode.set] (lines 66-78), started in window [w]. *)
Definition after_updates (mode : string) (w : Window) : Window :=
  let w' :=
    ui_status env (trans env "status.started")
      (ui_update env (ctx_update_ctx env (attachment_update env w))) in
  if String.eqb mode "assistant"
  then ctx_update_label_by_current env w' else w'.

(** [Mode.select] *)
Definition select (idx : Z) : M unit :=
  locked <- change_locked ;;
  if locked then ret tt
  else
    mode <- (fun s => (modes_get_by_idx env idx (window s),
                       mkState (window s) (log s ++ [ModesGetByIdx idx]))) ;;
    set mode ;;;
    let event := mkEvent MODE_SELECT {[ "value" := PyStr mode ]} in
    invoke (Dispatch event) (dispatcher_dispatch env event).

End WithWindow.

End ModeController.

(** ** Reading the log of a call *)

Module Log.
Import ChainCore.

(** The [send] calls in a log: which wrapper, with which arguments. *)
Definition sends (evs : list event) : list (wrapper_name * SendArgs.t) :=
  omap (fun ev => match ev with Send w a => Some (w, a) | _ => None end) evs.

(** The [ctx.set_output] calls in a log. *)
Definition outputs (evs : list event) : list (value * option string) :=
  omap (fun ev => match ev with SetOutput o n => Some (o, n) | _ => None end)
       evs.

(** The exceptions handed to the debug logger. *)
Definition logged (evs : list event) : list exn :=
  omap (fun ev => match ev with DebugLog e => Some e | _ => None end) evs.

(** The wrapper a sub-mode name stands for. *)
Definition wrapper_for (sub_mode : string) : wrapper_name :=
  if String.eqb sub_mode "completion" then Completion else Chat.

(** Two bridge contexts carry the same prompt, system prompt, model,
    streaming flag and history. *)
Definition agree_on_five (c1 c2 : BridgeContext.t) : Prop :=
  BridgeContext.prompt c1 = BridgeContext.prompt c2 /\
  BridgeContext.system_prompt c1 = BridgeContext.system_prompt c2 /\
  BridgeContext.model c1 = BridgeContext.model c2 /\
  BridgeContext.stream c1 = BridgeContext.stream c2 /\
  BridgeContext.history c1 = BridgeContext.history c2.

(** A write to the context item, and its effect. *)
Inductive write : Type :=
| WriteStream (v : value)
| WriteInputTokens (n : Z)
| WriteOutput (out : value) (name : option string).

Definition apply_write (c : CtxItem.t) (wr : write) : CtxItem.t :=
  match wr with
  | WriteStream v => CtxItem.set_stream v c
  | WriteInputTokens n => CtxItem.set_input_tokens n c
  | WriteOutput out name => CtxItem.set_output out name c
  end.

Definition apply_writes (ws : list write) (c : CtxItem.t) : CtxItem.t :=
  fold_left apply_write ws c.

Section Answers.

Context {World : Type}.

(** The run [run], started in world [w], went through the wrapper [wr]:
    [wr.send(a)] was applied to [w]; when it raised, the run raised the
    same exception and ended in the world the logger left; when it
    returned, [wr.get_used_tokens()] was applied to the world [send]
    left, with the same consequences when that raised, and otherwise the
    run ended in the world [get_used_tokens] left. *)
Definition sent_through (self : @Chain World) (wr : @Wrapper World)
    (a : SendArgs.t) (w : World) (run : (exn + bool) * @state World)
    : Prop :=
  match send wr a w with
  | (inl e, w1) => run.1 = inl e /\ world run.2 = debug_log self e w1
  | (inr _, w1) =>
      match get_used_tokens wr w1 with
      | (inl e, w2) => run.1 = inl e /\ world run.2 = debug_log self e w2
      | (inr _, w2) => world run.2 = w2
      end
  end.

End Answers.
End Log.

(** ** Sample objects *)

Module Sample.
Import ChainCore.

(** The world of the samples: the token count of the last request. *)
Definition world0 : Z := 0.

Definition empty_ctx : CtxItem.t :=
  CtxItem.mk PyNone PyNone None None 0 0 PyNone.

Definition turn : CtxItem.t :=
  CtxItem.mk (PyStr "hi") PyNone (Some "User") (Some "Bot") 0 0 PyNone.

Definition turn_other_bot : CtxItem.t :=
  CtxItem.mk (PyStr "hi") PyNone (Some "User") (Some "Robot") 0 0 PyNone.

Definition chat_model : ModelItem.t :=
  ModelItem.mk "gpt-4"
    {[ "provider" := LcStr "openai"; "mode" := LcList ["chat"; "completion"] ]}.

Definition completion_model : ModelItem.t :=
  ModelItem.mk "davinci"
    {[ "provider" := LcStr "openai"; "mode" := LcList ["completion"] ]}.

Definition other_model : ModelItem.t :=
  ModelItem.mk "vision" {[ "mode" := LcList ["vision"] ]}.

Definition bare_model : ModelItem.t := ModelItem.mk "bare" ∅.

Definition tokens_of (a : SendArgs.t) : Z :=
  Z.of_nat (String.length (SendArgs.prompt a)).

(** A chat wrapper answering with a message, or with chunks when asked to
    stream. *)
Definition chat_ok : Wrapper :=
  mkWrapper
    (fun a _ =>
       (inr (if SendArgs.stream a then PyStream ["Hel"; "lo"]
             else PyMessage (PyStr "Hello")), tokens_of a))
    (fun w => (inr w, w)).

(** A completion wrapper answering with a [str]. *)
Definition completion_ok : Wrapper :=
  mkWrapper
    (fun a _ =>
       (inr (if SendArgs.stream a then PyStream ["do"; "ne"]
             else PyStr "done"), tokens_of a))
    (fun w => (inr w, w)).

(** A wrapper that answers but cannot tell its token count. *)
Definition no_count : exn := Exn "ValueError" "no usage reported".

Definition uncounted : Wrapper :=
  mkWrapper (fun a _ => (inr (PyMessage (PyStr "Hello")), tokens_of a))
            (fun w => (inl no_count, w)).

(** A wrapper that answers [None]. *)
Definition answers_none : Wrapper :=
  mkWrapper (fun a _ => (inr PyNone, tokens_of a)) (fun w => (inr w, w)).

(** A wrapper whose [send] raises. *)
Definition boom : exn := Exn "RuntimeError" "connection refused".

Definition raises : Wrapper :=
  mkWrapper (fun _ w => (inl boom, w)) (fun w => (inr w, w)).

Definition no_log (e : exn) (w : Z) : Z := w.

Definition chain_ok : Chain := mkChain no_log chat_ok completion_ok.
Definition chain_none : Chain := mkChain no_log answers_none answers_none.
Definition chain_raises : Chain := mkChain no_log raises raises.

(** A chain whose logger counts what it is given, with a chat wrapper
    that fails and a completion wrapper that answers. *)
Definition count_log (e : exn) (w : Z) : Z := (w + 1000)%Z.

Definition chain_mixed : Chain := mkChain count_log raises completion_ok.
Definition chain_uncounted : Chain := mkChain count_log uncounted uncounted.

Definition request (m : ModelItem.t) (stream : bool) : BridgeContext.t :=
  BridgeContext.mk (Some turn) [] m "Say hello" stream "You are a bot".

Definition request_other_bot (m : ModelItem.t) (stream : bool)
    : BridgeContext.t :=
  BridgeContext.mk (Some turn_other_bot) [] m "Say hello" stream
                   "You are a bot".

Definition turn_other_input : CtxItem.t :=
  CtxItem.mk (PyStr "good morning") (PyStr "old answer")
             (Some "User") (Some "Bot") 7 3 PyNone.

Definition request_other_input (m : ModelItem.t) (stream : bool)
    : BridgeContext.t :=
  BridgeContext.mk (Some turn_other_input) [] m "Say hello" stream
                   "You are a bot".

(** A chain with another logger and another completion wrapper. *)
Definition chain_other : Chain :=
  mkChain (fun _ w => (w + 1)%Z) chat_ok raises.

Definition run_chat :=
  call empty_ctx chain_ok (request chat_model false) None world0.
Definition run_completion :=
  call empty_ctx chain_ok (request completion_model false) None world0.
Definition run_other :=
  call empty_ctx chain_ok (request other_model false) None world0.
Definition run_bare :=
  call empty_ctx chain_ok (request bare_model false) None world0.
Definition run_stream :=
  call empty_ctx chain_ok (request chat_model true) None world0.
Definition run_none :=
  call empty_ctx chain_none (request chat_model false) None world0.
Definition run_raises :=
  call empty_ctx chain_raises (request chat_model false) None world0.
Definition run_other_bot :=
  call empty_ctx chain_ok (request_other_bot chat_model false) None world0.
Definition run_other_input :=
  call empty_ctx chain_ok (request_other_input chat_model false) None world0.
Definition run_other_chain :=
  call empty_ctx chain_other (request chat_model false) None 5%Z.
Definition run_mixed_chat :=
  call empty_ctx chain_mixed (request chat_model false) None world0.
Definition run_mixed_completion :=
  call empty_ctx chain_mixed (request completion_model false) None world0.
Definition run_mixed_other :=
  call empty_ctx chain_mixed (request other_model false) None world0.
Definition run_mixed_bare :=
  call empty_ctx chain_mixed (request bare_model false) None world0.
Definition run_uncounted :=
  call empty_ctx chain_uncounted (request chat_model false) None world0.

(** A chain whose chat wrapper answers with a plain [str]. *)
Definition chain_plain : Chain := mkChain no_log completion_ok completion_ok.

Definition run_plain :=
  call empty_ctx chain_plain (request chat_model false) None world0.



(** A window with the chat input idle, and the controllers around the
    mode controller: the list of modes is fixed, the status bar keeps its
    text under the configuration key ["status"], and refreshing the UI
    picks a model when none is set. *)
Import ModeController.

Definition window0 : @Window unit :=
  mkWindow {[ "mode" := PyStr "chat"; "model" := PyStr "gpt-4" ]}
           false None None tt.

Definition window_busy : @Window unit :=
  mkWindow {[ "mode" := PyStr "chat" ]} true None None tt.

Definition mode_names : list string :=
  ["chat"; "completion"; "langchain"; "assistant"].

Definition pick_model (w : @Window unit) : @Window unit :=
  match config w !! "model" with
  | Some (PyStr "") => config_set "model" (PyStr "default") w
  | _ => w
  end.

Definition env0 : @Env unit :=
  mkEnv (fun idx _ => default "" (mode_names !! Z.to_nat idx))
        id (fun _ => id) id id id pick_model
        (fun msg => config_set "status" (PyStr msg))
        id (fun _ => id) (fun key => key).
End Sample.

(** ** The other methods of the mode controller *)

Module ModeDefaults.
Import ModeController.

(** [v == ""] for a configuration value. *)
Definition is_empty_str (v : value) : bool :=
  match v with PyStr s => String.eqb s "" | _ => false end.

Section WithWindow.

Context {Rest : Type}.

(** Modelled from the spec: [Config.get] belongs to [pygpt_net/config.py],
    which is not among the sources verified here.  The controllers read
    configuration keys and test the result against [None];
    [config.get(key)] is the value stored under [key], and [None] when
    there is none. *)
Definition config_get (key : string) (w : @Window Rest) : value :=
  default PyNone (config w !! key).

(** A mode is configured: [config.get('mode')] is neither [None] nor the
    empty string. *)
Definition mode_is_set (w : @Window Rest) : Prop :=
  config_get "mode" w <> PyNone /\ config_get "mode" w <> PyStr "".

(** [window.core.modes.get_default()], a method of another object. *)
Variable modes_get_default : @Window Rest -> value.

Notation "x <- m ;; k" := (bind m (fun x => k))
  (at level 100, m at next level, right associativity).
Notation "m ;;; k" := (bind m (fun _ => k))
  (at level 100, right associativity).

(** [Mode.select_default] *)
Definition select_default : @M Rest unit :=
  mode <- read (config_get "mode") ;;
  if is_none mode || is_empty_str mode then
    d <- read modes_get_default ;;
    invoke (ConfigSet "mode" d) (config_set "mode" d)
  else ret tt.

(** [Mode.reset_current] *)
Definition reset_current : @M Rest unit :=
  invoke (ConfigSet "prompt" PyNone) (config_set "prompt" PyNone) ;;;
  invoke (ConfigSet "ai_name" PyNone) (config_set "ai_name" PyNone) ;;;
  invoke (ConfigSet "user_name" PyNone) (config_set "user_name" PyNone).

End WithWindow.

End ModeDefaults.

(** ** The temperature hook of the mode controller *)

Module ModeTemperature.

Section WithFloat.

(** [F] is the type of Python floats; [div100 v] is [v / 100] for an
    [int] [v], and [None] where the quotient is too large for a float and
    the division raises [OverflowError]; [Rest] is the part of the window
    the hook never touches. *)
Context {F Rest : Type} (div100 : Z -> option F).

(** Values kept under the keys the hook uses: [None], a preset id, a
    temperature. *)
Inductive cfg : Type :=
| CNone
| CStr (s : string)
| CFloat (f : F).

(** A preset: its name and its temperature. *)
Record Preset : Type := mkPreset {
  name : string;
  temperature : cfg
}.

(** [preset.temperature = v] *)
Definition assign_temperature (v : cfg) (p : Preset) : Preset :=
  mkPreset (name p) v.

(** The configuration store, the dictionary [window.core.presets.items],
    and the rest. *)
Record Window : Type := mkWindow {
  config : gmap string cfg;
  items : gmap string Preset;
  rest : Rest
}.

(** Modelled from the spec: [Config.get] and [Config.set] belong to
    [pygpt_net/config.py], which is not among the sources verified here.
    The controllers read and write configuration keys: [config.get(key)]
    is the value stored under [key] and [None] when there is none,
    [config.set(key, v)] stores [v] under [key]. *)
Definition config_get (key : string) (w : Window) : cfg :=
  default CNone (config w !! key).

Definition config_set (key : string) (v : cfg) (w : Window) : Window :=
  mkWindow (<[key := v]> (config w)) (items w) (rest w).

(** Calls made by the hook on other objects. *)
Inductive call : Type :=
| ConfigSet (key : string) (v : cfg)
| PresetsSave (id : string).

Definition is_config_set (c : call) : bool :=
  match c with ConfigSet _ _ => true | _ => false end.

Definition overflow : exn :=
  Exn "OverflowError" "integer division result too large for a float".

(** [window.core.presets.save(id)], a method of another object. *)
Variable presets_save : string -> Window -> Window.

(** [Mode.hook_global_temperature]: the outcome, the window it leaves
    and the calls it makes.  A preset id that is not a [str] is no key of
    the dictionary of presets. *)
Definition hook_global_temperature (key : string) (value : Z)
    (caller : string) (w : Window) : (exn + unit) * (Window * list call) :=
  if negb (String.eqb caller "slider") then (inr tt, (w, []))
  else
    match div100 value with
    | None => (inl overflow, (w, []))
    | Some f =>
        let temperature := CFloat f in
        let w1 := config_set "temperature" temperature w in
        let log1 := [ConfigSet "temperature" temperature] in
        let preset_id := config_get "preset" w1 in
        match preset_id with
        | CNone => (inr tt, (w1, log1))
        | CStr id =>
            if String.eqb id "" then (inr tt, (w1, log1))
            else
              match items w1 !! id with
              | Some preset =>
                  let w2 :=
                    mkWindow
                      (config w1)
                      (<[id := assign_temperature temperature preset]>
                         (items w1))
                      (rest w1) in
                  (inr tt,
                   (presets_save id w2, (log1 ++ [PresetsSave id])%list))
              | None => (inr tt, (w1, log1))
              end
        | CFloat _ => (inr tt, (w1, log1))
        end
    end.

End WithFloat.

End ModeTemperature.

(** ** The indexes controller *)

Module IdxController.

(** Values kept in the configuration under the [llama.idx.*] keys: [None],
    a flag, a timestamp, a name or a comma-separated list of names, and
    the list of index descriptions. *)
Inductive cfg_value : Type :=
| CfgNone
| CfgBool (b : bool)
| CfgInt (n : Z)
| CfgStr (s : string)
| CfgItems (items : list (gmap string string)).

(** [v is None] *)
Definition cfg_is_none (v : cfg_value) : bool :=
  match v with CfgNone => true | _ => false end.

(** Truth value of [v] in a condition. *)
Definition truthy (v : cfg_value) : bool :=
  match v with
  | CfgNone => false
  | CfgBool b => b
  | CfgInt n => negb (Z.eqb n 0)
  | CfgStr s => negb (String.eqb s "")
  | CfgItems items => match items with [] => false | _ => true end
  end.

(** [s.replace(" ", "")] *)
Fixpoint str_remove_spaces (s : string) : string :=
  match s with
  | EmptyString => EmptyString
  | String c s' =>
      if Ascii.eqb c " "%char then str_remove_spaces s'
      else String c (str_remove_spaces s')
  end.

(** [s.split(',')]: the pieces between the commas; there is always at
    least one piece. *)
Fixpoint str_split_comma (s : string) : list string :=
  match s with
  | EmptyString => [EmptyString]
  | String c s' =>
      if Ascii.eqb c ","%char then EmptyString :: str_split_comma s'
      else
        match str_split_comma s' with
        | piece :: pieces => String c piece :: pieces
        | [] => [String c EmptyString]
        end
  end.

(** [c in s] for a character. *)
Fixpoint has_char (c : Ascii.ascii) (s : string) : bool :=
  match s with
  | EmptyString => false
  | String c' s' => Ascii.eqb c' c || has_char c s'
  end.

(** [",".join(names)] *)
Fixpoint join_comma (names : list string) : string :=
  match names with
  | [] => EmptyString
  | [n] => n
  | n :: names' => (n ++ String ","%char (join_comma names'))%string
  end.

Section WithWindow.

(** [Meta] is the type of context meta objects, [Rest] the part of the
    window the controller never touches itself. *)
Context {Meta Rest : Type}.

(** The controller and the window as [Idx] sees them: the configuration
    store, the attributes [self.current_idx] and [self.locked], the
    attribute [window.controller.chat.input.stop], the attribute
    [window.core.ctx.current], and the rest. *)
Record Idx : Type := mkIdx {
  config : gmap string cfg_value;
  current_idx : cfg_value;
  locked : bool;
  stop : bool;
  ctx_current : option Z;
  rest : Rest
}.

(** Modelled from the spec: [Config.get], [Config.has] and [Config.set]
    belong to [pygpt_net/config.py], which is not among the sources
    verified here.  The controllers read and write configuration keys:
    [config.get(key)] is the value stored under [key] and [None] when
    there is none, [config.has(key)] tells whether a value is stored
    under [key], and [config.set(key, v)] stores [v] under [key]. *)
Definition config_get (key : string) (s : Idx) : cfg_value :=
  default CfgNone (config s !! key).

Definition config_has (key : string) (s : Idx) : bool :=
  bool_decide (is_Some (config s !! key)).

Definition config_set (key : string) (v : cfg_value) (s : Idx) : Idx :=
  mkIdx (<[key := v]> (config s)) (current_idx s) (locked s) (stop s)
        (ctx_current s) (rest s).

(** [self.current_idx = v] *)
Definition assign_current_idx (v : cfg_value) (s : Idx) : Idx :=
  mkIdx (config s) v (locked s) (stop s) (ctx_current s) (rest s).

(** [self.locked = b] *)
Definition assign_locked (b : bool) (s : Idx) : Idx :=
  mkIdx (config s) (current_idx s) b (stop s) (ctx_current s) (rest s).

(** Calls made by [Idx] on other objects, in program order. *)
Inductive call : Type :=
| CoreIdxLoad
| UpdateExplorer
| CommonSetup
| ConfigSet (key : string) (v : cfg_value)
| UiUpdate
| GetByIdx (row : Z)
| GetDefaultIdx
| IndexCtxCurrent (idx : cfg_value)
| IndexCtxFromTs (idx : cfg_value) (ts : Z)
| IndexAllFiles (idx : cfg_value)
| IndexCtxRealtime (meta : Meta) (idx : cfg_value) (sync : bool)
| GetMetaById (id : Z)
| SetValue (idx : cfg_value)
| ToolboxIndexesUpdate (items : cfg_value)
| SetText (txt : string).

Definition is_config_set (c : call) : bool :=
  match c with ConfigSet _ _ => true | _ => false end.

(** The calls that start an indexing job. *)
Definition is_indexing (c : call) : bool :=
  match c with
  | IndexCtxCurrent _ | IndexCtxFromTs _ _ | IndexAllFiles _
  | IndexCtxRealtime _ _ _ => true
  | _ => false
  end.

(** The other objects [Idx] calls into.  Each method that acts may change
    any part of the state.  The two calls on widgets,
    [ui.nodes['indexes.select'].set_value] and
    [ui.toolbox.indexes.update], may raise (the subscript, the widget).
    [int_of_str] is [int] on a [str] ([None] where it raises
    [ValueError]); [strftime_local] is
    [datetime.datetime.fromtimestamp(ts).strftime('%Y-%m-%d %H:%M:%S')],
    which depends on the local time zone and raises for a timestamp out
    of the range of the platform or past the year 9999. *)
Record Env : Type := mkEnv {
  core_idx_load : Idx -> Idx;
  indexer_update_explorer : Idx -> Idx;
  common_setup : Idx -> Idx;
  ui_update : Idx -> Idx;
  core_idx_get_by_idx : Z -> Idx -> cfg_value;
  core_idx_get_default_idx : Idx -> cfg_value;
  indexer_index_ctx_current : cfg_value -> Idx -> Idx;
  indexer_index_ctx_from_ts : cfg_value -> Z -> Idx -> Idx;
  indexer_index_all_files : cfg_value -> Idx -> Idx;
  indexer_index_ctx_realtime : Meta -> cfg_value -> bool -> Idx -> Idx;
  ctx_get_meta_by_id : Z -> Idx -> option Meta;
  indexes_select_set_value : cfg_value -> Idx -> (exn + unit) * Idx;
  toolbox_indexes_update : cfg_value -> Idx -> (exn + unit) * Idx;
  last_updated_setText : string -> Idx -> Idx;
  trans : string -> string;
  int_of_str : string -> option Z;
  strftime_local : Z -> exn + string
}.

(** State threaded through the controller: the controller with its window
    and the log of calls made so far. *)
Record state : Type := mkState {
  this : Idx;
  log : list call
}.

(** Computations that return a value or raise. *)
Definition M (A : Type) : Type := state -> (exn + A) * state.

Definition ret {A} (a : A) : M A := fun s => (inr a, s).

Definition raise {A} (e : exn) : M A := fun s => (inl e, s).

Definition bind {A B} (m : M A) (k : A -> M B) : M B :=
  fun s =>
    match m s with
    | (inr a, s') => k a s'
    | (inl e, s') => (inl e, s')
    end.

(** A call [c] that acts on the state through [f]. *)
Definition invoke (c : call) (f : Idx -> Idx) : M unit :=
  fun s => (inr tt, mkState (f (this s)) (log s ++ [c])).

(** A call [c] that acts on the state through [f] and may raise. *)
Definition invoke_try (c : call) (f : Idx -> (exn + unit) * Idx) : M unit :=
  fun s => ((f (this s)).1, mkState (f (this s)).2 (log s ++ [c])).

(** A call [c] that answers with [f]. *)
Definition ask {A} (c : call) (f : Idx -> A) : M A :=
  fun s => (inr (f (this s)), mkState (this s) (log s ++ [c])).

(** Reading an attribute or a configuration key. *)
Definition read {A} (f : Idx -> A) : M A :=
  fun s => (inr (f (this s)), s).

(** Assigning an attribute of the controller. *)
Definition assign (f : Idx -> Idx) : M unit :=
  fun s => (inr tt, mkState (f (this s)) (log s)).

Notation "x <- m ;; k" := (bind m (fun x => k))
  (at level 100, m at next level, right associativity).
Notation "m ;;; k" := (bind m (fun _ => k))
  (at level 100, right associativity).

Variable env : Env.

(** [self.window.core.config.set(key, v)] *)
Definition do_config_set (key : string) (v : cfg_value) : M unit :=
  invoke (ConfigSet key v) (config_set key v).

(** [Idx.change_locked] *)
Definition change_locked : M bool := read locked.

(** [Idx.set] *)
Definition set (idx : cfg_value) : M unit :=
  do_config_set "llama.idx.current" idx ;;;
  assign (assign_current_idx idx).

(** [Idx.set_by_idx] *)
Definition set_by_idx (row : Z) : M unit :=
  idx <- ask (GetByIdx row) (core_idx_get_by_idx env row) ;;
  if cfg_is_none idx then ret tt
  else
    do_config_set "llama.idx.current" idx ;;;
    assign (assign_current_idx idx).

(** [Idx.select] *)
Definition select (row : Z) : M unit :=
  is_locked <- change_locked ;;
  if is_locked then ret tt
  else
    set_by_idx row ;;;
    invoke UiUpdate (ui_update env).

(** [Idx.select_by_id] *)
Definition select_by_id (id : cfg_value) : M unit :=
  is_locked <- change_locked ;;
  if is_locked then ret tt
  else
    do_config_set "llama.idx.current" id ;;;
    assign (assign_current_idx id) ;;;
    invoke UiUpdate (ui_update env).

(** [Idx.idx_db_update_by_idx] *)
Definition idx_db_update_by_idx (row : Z) : M unit :=
  idx <- ask (GetByIdx row) (core_idx_get_by_idx env row) ;;
  if cfg_is_none idx then ret tt
  else invoke (IndexCtxCurrent idx) (indexer_index_ctx_current env idx).

(** [Idx.idx_db_all_by_idx] *)
Definition idx_db_all_by_idx (row : Z) : M unit :=
  idx <- ask (GetByIdx row) (core_idx_get_by_idx env row) ;;
  if cfg_is_none idx then ret tt
  else invoke (IndexCtxFromTs idx 0) (indexer_index_ctx_from_ts env idx 0).

(** [Idx.idx_files_all_by_idx] *)
Definition idx_files_all_by_idx (row : Z) : M unit :=
  idx <- ask (GetByIdx row) (core_idx_get_by_idx env row) ;;
  if cfg_is_none idx then ret tt
  else invoke (IndexAllFiles idx) (indexer_index_all_files env idx).

(** [Idx.select_current] *)
Definition select_current : M unit :=
  idx <- read (config_get "llama.idx.current") ;;
  if cfg_is_none idx then ret tt
  else
    items <- read (config_get "llama.idx.list") ;;
    if negb (cfg_is_none items)
    then invoke_try (SetValue idx) (indexes_select_set_value env idx)
    else ret tt.

(** [Idx.select_default] *)
Definition select_default : M unit :=
  idx <- read (config_get "llama.idx.current") ;;
  if cfg_is_none idx then
    idx <- ask GetDefaultIdx (core_idx_get_default_idx env) ;;
    if negb (cfg_is_none idx) then assign (assign_current_idx idx)
    else ret tt
  else ret tt.

(** [Idx.update_list] *)
Definition update_list : M unit :=
  items <- read (config_get "llama.idx.list") ;;
  if negb (cfg_is_none items)
  then invoke_try (ToolboxIndexesUpdate items)
                  (toolbox_indexes_update env items)
  else ret tt.

(** [Idx.update] *)
Definition update : M unit :=
  select_default ;;;
  update_list ;;;
  select_current.

(** [Idx.setup] *)
Definition setup : M unit :=
  invoke CoreIdxLoad (core_idx_load env) ;;;
  invoke UpdateExplorer (indexer_update_explorer env) ;;;
  invoke CommonSetup (common_setup env) ;;;
  last_idx <- read (config_get "llama.idx.current") ;;
  (if negb (cfg_is_none last_idx)
   then assign (assign_current_idx last_idx) else ret tt) ;;;
  assign (assign_locked true) ;;;
  update ;;;
  assign (assign_locked false).

(** [Idx.refresh] *)
Definition refresh : M unit := select_default.

(** [Idx.reload] *)
Definition reload : M unit := setup.

(** [Idx.auto_idx_allowed]: [replace] is a method of [str], on any other
    value that is not [None] the attribute access raises. *)
Definition auto_idx_allowed (mode : string) : M bool :=
  modes <- read (config_get "llama.idx.auto.modes") ;;
  if negb (cfg_is_none modes) then
    match modes with
    | CfgStr s =>
        let modes_list := str_split_comma (str_remove_spaces s) in
        if bool_decide (mode ∈ modes_list) then ret true else ret false
    | _ => raise (Exn "AttributeError" "replace")
    end
  else ret false.

(** [Idx.on_ctx_end] *)
Definition on_ctx_end (ctx : option CtxItem.t) (mode : option string)
    (sync : bool) : M unit :=
  disallowed <- match mode with
                | Some m => allowed <- auto_idx_allowed m ;;
                            ret (negb allowed)
                | None => ret false
                end ;;
  if disallowed then ret tt
  else
    stopped <- read stop ;;
    if stopped then ret tt
    else
      let idx := CfgStr "base" in
      has_auto <- read (config_has "llama.idx.auto") ;;
      auto <- (if has_auto
               then v <- read (config_get "llama.idx.auto") ;; ret (truthy v)
               else ret false) ;;
      if auto then
        has_index <- read (config_has "llama.idx.auto.index") ;;
        idx <- (if has_index then read (config_get "llama.idx.auto.index")
                else ret idx) ;;
        current_ctx <- read ctx_current ;;
        match current_ctx with
        | Some id =>
            meta <- ask (GetMetaById id) (ctx_get_meta_by_id env id) ;;
            match meta with
            | Some m =>
                invoke (IndexCtxRealtime m idx sync)
                       (indexer_index_ctx_realtime env m idx sync)
            | None => ret tt
            end
        | None => ret tt
        end
      else ret tt.

(** [int(v)] *)
Definition py_int (v : cfg_value) : M Z :=
  match v with
  | CfgInt n => ret n
  | CfgBool b => ret (if b then 1 else 0)%Z
  | CfgStr s =>
      match int_of_str env s with
      | Some n => ret n
      | None => raise (Exn "ValueError" "invalid literal for int()")
      end
  | CfgNone | CfgItems _ =>
      raise (Exn "TypeError" "int() argument must be a string or a number")
  end.

(** [Idx.after_index] *)
Definition after_index (idx : option string) : M unit :=
  invoke UpdateExplorer (indexer_update_explorer env) ;;;
  let last_str := "---" in
  has_last <- read (config_has "llama.idx.db.last") ;;
  last_str <- (if has_last then
                 v <- read (config_get "llama.idx.db.last") ;;
                 last_ts <- py_int v ;;
                 if (0 <? last_ts)%Z then
                   match strftime_local env last_ts with
                   | inr formatted => ret formatted
                   | inl e => raise e
                   end
                 else ret last_str
               else ret last_str) ;;
  let txt := (trans env "idx.last" ++ ": " ++ last_str)%string in
  invoke (SetText txt) (last_updated_setText env txt).

End WithWindow.

End IdxController.

(** ** Reading the log of the indexes controller *)

Module IdxLog.
Import IdxController.

Section WithWindow.

Context {Meta Rest : Type}.

(** A call that neither writes the configuration nor starts an indexing
    job. *)
Definition quiet (c : @call Meta) : Prop :=
  is_config_set c = false /\ is_indexing c = false.

(** Started in a state that satisfies [I], [m] adds to the log only
    calls that satisfy [P]; the state it leaves satisfies [Q] when it
    returns and [R] when it raises. *)
Definition steps (P : @call Meta -> Prop) (I Q R : @Idx Rest -> Prop) {A}
    (m : @M Meta Rest A) : Prop :=
  forall s, I (this s) ->
    exists r t l,
      m s = (r, mkState t (log s ++ l)) /\ Forall P l /\
      match r with inr _ => Q t | inl _ => R t end.

(** The part of [Idx.setup] that follows [common.setup()] (lines 40-48):
    the configured index is restored, and [Idx.update] runs between
    [self.locked = True] and [self.locked = False]. *)
Definition setup_tail (env : @Env Meta Rest) : @M Meta Rest unit :=
  bind (read (config_get "llama.idx.current")) (fun last_idx =>
  bind (if negb (cfg_is_none last_idx)
        then assign (assign_current_idx last_idx) else ret tt) (fun _ =>
  bind (assign (assign_locked true)) (fun _ =>
  bind (update env) (fun _ =>
  assign (assign_locked false))))).

(** The index a realtime job is sent to: the one configured under
    ['llama.idx.auto.index'], and ["base"] when that key is absent. *)
Definition auto_index (s : @Idx Rest) : cfg_value :=
  default (CfgStr "base") (config s !! "llama.idx.auto.index").

End WithWindow.

End IdxLog.

(** ** Sample objects for the indexes controller *)

Module IdxSample.
Import IdxController.

Definition index_names : list string := ["base"; "docs"].

(** A controller in its initial state over a window with automatic
    indexing switched on for three modes. *)
Definition idx0 : @Idx unit :=
  mkIdx {[ "llama.idx.auto" := CfgBool true;
           "llama.idx.auto.modes" := CfgStr "chat, completion ,langchain";
           "llama.idx.list" :=
             CfgItems [ {[ "id" := "base" ]}; {[ "id" := "docs" ]} ];
           "llama.idx.db.last" := CfgInt 0 ]}
        (CfgStr "base") false false (Some 7%Z) tt.

(** The same with the lock held. *)
Definition idx_locked : @Idx unit := assign_locked true idx0.

(** The same after the user stopped the generation. *)
Definition idx_stopped : @Idx unit :=
  mkIdx (config idx0) (current_idx idx0) false true (ctx_current idx0) tt.

(** The same with a target index and a last indexing time configured. *)
Definition idx_docs : @Idx unit :=
  config_set "llama.idx.db.last" (CfgInt 1714374000)
    (config_set "llama.idx.auto.index" (CfgStr "docs") idx0).

Definition year_out_of_range : exn :=
  Exn "ValueError" "year 10000 is out of range".

Definition env0 : @Env string unit :=
  mkEnv id id id id
        (fun row _ =>
           if (row <? 0)%Z then CfgNone
           else match index_names !! Z.to_nat row with
                | Some n => CfgStr n
                | None => CfgNone
                end)
        (fun _ => CfgStr "base")
        (fun _ => id) (fun _ _ => id) (fun _ => id) (fun _ _ _ => id)
        (fun id _ => if (id =? 7)%Z then Some "meta-7" else None)
        (fun _ t => (inr tt, t)) (fun _ t => (inr tt, t)) (fun _ => id)
        (fun key => key) (fun _ => None)
        (fun ts => if (ts <? 253402300800)%Z
                   then inr "2024-04-29 07:00:00"
                   else inl year_out_of_range).

(** The same objects around a window whose index selector is missing:
    the subscript [nodes['indexes.select']] raises. *)
Definition no_selector : exn := Exn "KeyError" "indexes.select".

Definition env_no_selector : @Env string unit :=
  mkEnv id id id id
        (core_idx_get_by_idx env0) (core_idx_get_default_idx env0)
        (fun _ => id) (fun _ _ => id) (fun _ => id) (fun _ _ _ => id)
        (ctx_get_meta_by_id env0)
        (fun _ t => (inl no_selector, t)) (fun _ t => (inr tt, t))
        (fun _ => id)
        (fun key => key) (fun _ => None) (strftime_local env0).

(** A controller whose configuration names the current index. *)
Definition idx_configured : @Idx unit :=
  config_set "llama.idx.current" (CfgStr "docs") idx0.

(** The same with a last indexing time past the year 9999. *)
Definition idx_far : @Idx unit :=
  config_set "llama.idx.db.last" (CfgInt 253402300800) idx0.


Definition start (t : @Idx unit) : @state string unit := mkState t [].

End IdxSample.

(** ** Further sample objects for the chain and the mode controller *)

Module MoreSample.
Import ChainCore Sample.

(** A window in which no mode is configured yet, and the default mode. *)
Definition window_fresh : @ModeController.Window unit :=
  ModeController.mkWindow {[ "prompt" := PyStr "You are a bot" ]}
                          false None None tt.

Definition default_mode (w : @ModeController.Window unit) : value :=
  PyStr "chat".

Definition fresh : @ModeController.state unit :=
  ModeController.mkState window_fresh [].

Definition configured : @ModeController.state unit :=
  ModeController.mkState window0 [].


(** Floats written as fractions, with the largest magnitude a float can
    take; two presets, the first one selected. *)
Definition fraction (v : Z) : option (Z * Z) :=
  if (Z.abs v <? 100 * 2 ^ 1024)%Z then Some (v, 100%Z) else None.

Definition presets0 : @ModeTemperature.Window (Z * Z) unit :=
  ModeTemperature.mkWindow
    {[ "preset" := ModeTemperature.CStr "coder" ]}
    {[ "coder" :=
         ModeTemperature.mkPreset "Coder" (ModeTemperature.CFloat (1, 1)%Z);
       "poet" :=
         ModeTemperature.mkPreset "Poet" (ModeTemperature.CFloat (3, 2)%Z) ]}
    tt.

(** The same window with no preset selected. *)
Definition presets_unselected : @ModeTemperature.Window (Z * Z) unit :=
  ModeTemperature.mkWindow
    {[ "preset" := ModeTemperature.CStr "" ]}
    (ModeTemperature.items presets0) tt.

Definition save_nothing (id : string)
    (w : @ModeTemperature.Window (Z * Z) unit) := w.

End MoreSample.

(** * Properties of [Chain.call] *)

Section ChainFacts.
Import ChainCore Log.

Context {World : Type} (empty_ctx : CtxItem.t).

Implicit Types (self : @Chain World) (context : BridgeContext.t)
  (extra : option (gmap string value)) (w : World).

Lemma select_sub_mode_cases (m : ModelItem.t) :
  select_sub_mode m = "chat" \/ select_sub_mode m = "completion".
Proof.
  unfold select_sub_mode.
  destruct (ModelItem.langchain m !! "mode") as [v|]; [|by left].
  destruct (py_in "chat" v); [by left|].
  destruct (py_in "completion" v); [by right|by left].
Qed.

(** What a call does, as one case analysis on the answers of the selected
    wrapper. *)
Lemma call_unfold self context extra w :
  let ctx := ctx_of empty_ctx context in
  let ai_name := CtxItem.output_name ctx in
  let wn := wrapper_for (select_sub_mode (BridgeContext.model context)) in
  let args := send_args_of empty_ctx context in
  call empty_ctx self context extra w =
  match send (wrapper_of self wn) args w with
  | (inl e, w1) =>
      (inl e, mkState (debug_log self e w1) ctx [Send wn args; DebugLog e])
  | (inr r, w1) =>
      let asked := [Send wn args; GetUsedTokens wn] in
      match get_used_tokens (wrapper_of self wn) w1 with
      | (inl e, w2) =>
          (inl e, mkState (debug_log self e w2) ctx (asked ++ [DebugLog e]))
      | (inr n, w2) =>
          if BridgeContext.stream context then
            (inr true,
             mkState w2
               (CtxItem.set_output (PyStr "") ai_name
                  (CtxItem.set_input_tokens n (CtxItem.set_stream r ctx)))
               (asked ++ [SetOutput (PyStr "") ai_name]))
          else if is_none r then (inr false, mkState w2 ctx asked)
          else
            match wn with
            | Chat =>
                match getattr_content r with
                | inr c =>
                    (inr true,
                     mkState w2 (CtxItem.set_output c ai_name ctx)
                             (asked ++ [SetOutput c ai_name]))
                | inl e => (inl e, mkState w2 ctx asked)
                end
            | Completion =>
                (inr true,
                 mkState w2 (CtxItem.set_output r ai_name ctx)
                         (asked ++ [SetOutput r ai_name]))
            end
      end
  end.
Proof.
  intros ctx ai_name wn args.
  unfold call, call_body, wn, args, send_args_of.
  fold ctx. fold ai_name.
  destruct (select_sub_mode_cases (BridgeContext.model context)) as [-> | ->];
    cbn [wrapper_for String.eqb Ascii.eqb Bool.eqb andb];
    unfold bind, try_except, call_send, call_get_used_tokens, ret; cbn;
    (destruct (send _ _ w) as [[e|r] w1]; cbn; [reflexivity|]);
    (destruct (get_used_tokens _ w1) as [[e|n] w2]; cbn; [reflexivity|]);
    (destruct (BridgeContext.stream context); cbn; [reflexivity|]);
    (destruct (is_none r); cbn; [reflexivity|]);
    unfold content_of;
    try (destruct (getattr_content r); cbn); reflexivity.
Qed.

(** Case analysis on a call: rewrite with [call_unfold] and split on the
    answers of the wrapper and on the tests of the code. *)
Ltac call_cases :=
  repeat match goal with
  | |- context [call _ ?self ?c ?extra ?w] =>
      let H := fresh in
      pose proof (call_unfold self c extra w) as H;
      cbv zeta in H; rewrite H; clear H
  end.

Ltac split_answers :=
  repeat match goal with
  | |- context [send ?wr ?a ?w] =>
      let r := fresh "r" in let e := fresh "e" in let w1 := fresh "w1" in
      destruct (send wr a w) as [[e|r] w1]
  | |- context [get_used_tokens ?wr ?w] =>
      let n := fresh "n" in let e := fresh "e" in let w2 := fresh "w2" in
      destruct (get_used_tokens wr w) as [[e|n] w2]
  | |- context [if BridgeContext.stream ?c then _ else _] =>
      destruct (BridgeContext.stream c)
  | |- context [if is_none ?r then _ else _] => destruct (is_none r)
  | |- context [match getattr_content ?r with _ => _ end] =>
      destruct (getattr_content r)
  | |- context [match wrapper_for ?m with _ => _ end] =>
      destruct (wrapper_for m)
  end.

(** Every call makes exactly one [send], on the wrapper of the selected
    sub-mode, with the arguments built from the bridge context. *)
Lemma call_sends self context extra w :
  sends (events (call empty_ctx self context extra w).2) =
  [(wrapper_for (select_sub_mode (BridgeContext.model context)),
    send_args_of empty_ctx context)].
Proof.
  call_cases.
  set (wn := wrapper_for _). set (args := send_args_of _ _).
  destruct (send _ args w) as [[e|r] w1]; [reflexivity|].
  destruct (get_used_tokens _ w1) as [[e|n] w2]; [reflexivity|].
  destruct (BridgeContext.stream context); [reflexivity|].
  destruct (is_none r); [reflexivity|].
  destruct wn; [destruct (getattr_content r)|]; reflexivity.
Qed.

(** Every call goes through the wrapper of the selected sub-mode. *)
Lemma call_sent_through self context extra w :
  sent_through self
    (wrapper_of self
       (wrapper_for (select_sub_mode (BridgeContext.model context))))
    (send_args_of empty_ctx context) w
    (call empty_ctx self context extra w).
Proof.
  unfold sent_through. call_cases.
  set (wn := wrapper_for _). set (args := send_args_of _ _).
  destruct (send _ args w) as [[e|r] w1]; [done|].
  destruct (get_used_tokens _ w1) as [[e|n] w2]; [done|].
  destruct (BridgeContext.stream context); [done|].
  destruct (is_none r); [done|].
  destruct wn; [destruct (getattr_content r)|]; done.
Qed.

(** C1.  Every call to [Chain.call] makes exactly one [send], and the
    wrapper whose [send] is invoked is chosen from the value of the
    ['mode'] key of [model.langchain]: if the key is present and ['chat']
    is in its value, [self.chat.send]; otherwise, if ['completion'] is in
    its value, [self.completion.send]; in every other case (no ['mode']
    key, or neither name listed) the sub-mode is the default ['chat'] and
    [self.chat.send] is invoked.  "In" is Python's [in]: membership when
    the value is a list of names.  That a wrapper's [send] is invoked
    means that the one [send] of the log names it and that the run is
    the one its answers produce: its exception is the one the call
    raises, and the world it leaves is the one the call goes on with. *)
Theorem call_selects_wrapper self context extra w :
  let modes :=
    ModelItem.langchain (BridgeContext.model context) !! "mode" in
  let run := call empty_ctx self context extra w in
  let invoked name wr :=
    exists a, sends (events run.2) = [(name, a)] /\
              sent_through self wr a w run in
  (forall v, modes = Some v -> py_in "chat" v = true ->
     invoked Chat (chat self)) /\
  (forall v, modes = Some v -> py_in "chat" v = false ->
             py_in "completion" v = true ->
     invoked Completion (completion self)) /\
  (modes = None \/
   (exists v, modes = Some v /\ py_in "chat" v = false /\
              py_in "completion" v = false) ->
   select_sub_mode (BridgeContext.model context) = "chat" /\
   invoked Chat (chat self)).
Proof.
  intros modes run invoked. subst invoked run.
  pose proof (call_sends self context extra w) as Hs.
  pose proof (call_sent_through self context extra w) as Ht.
  unfold select_sub_mode in *. fold modes in Hs, Ht |- *.
  split; [|split].
  - intros v Hv Hc. rewrite Hv, Hc in Hs, Ht. by eexists.
  - intros v Hv Hc Hp. rewrite Hv, Hc, Hp in Hs, Ht. by eexists.
  - intros [Hv | (v & Hv & Hc & Hp)].
    + rewrite Hv in Hs, Ht |- *. split; [done|]. by eexists.
    + rewrite Hv, Hc, Hp in Hs, Ht |- *. split; [done|]. by eexists.
Qed.


(** C3, as amended.  A call with [stream] false whose selected wrapper
    returns a response [r] other than [None] (under sub-mode ['chat'] an
    object that has a [content] attribute) and then reports its token
    count copies the result into the context item and returns [True]:
    the output [out] handed to [ctx.set_output] is [r.content] under
    sub-mode ['chat'] and [r] itself under sub-mode ['completion'], in
    both cases together with [ai_name], the [output_name] of the item.
    That is the only [set_output] of the call, and nothing else of the
    item changes. *)
Theorem call_stores_output self context extra w r w1 n w2 out :
  let ctx := ctx_of empty_ctx context in
  let sub_mode := select_sub_mode (BridgeContext.model context) in
  let wr := wrapper_of self (wrapper_for sub_mode) in
  let run := call empty_ctx self context extra w in
  BridgeContext.stream context = false ->
  send wr (send_args_of empty_ctx context) w = (inr r, w1) ->
  get_used_tokens wr w1 = (inr n, w2) ->
  r <> PyNone ->
  (sub_mode = "chat" -> getattr_content r = inr out) ->
  (sub_mode = "completion" -> out = r) ->
  run.1 = inr true /\
  outputs (events run.2) = [(out, CtxItem.output_name ctx)] /\
  item run.2 = CtxItem.set_output out (CtxItem.output_name ctx) ctx /\
  CtxItem.output (item run.2) = out /\
  CtxItem.output_name (item run.2) = CtxItem.output_name ctx.
Proof.
  intros ctx sub_mode wr run Hstream Hsend Hused Hr Hchat Hcompl.
  subst run wr.
  call_cases. fold ctx. fold sub_mode. rewrite Hsend, Hused, Hstream.
  assert (is_none r = false) as -> by (by destruct r).
  destruct (select_sub_mode_cases (BridgeContext.model context)) as [E|E];
    fold sub_mode in E; rewrite E; cbn [wrapper_for String.eqb].
  - rewrite (Hchat E). by cbn.
  - rewrite (Hcompl E). by cbn.
Qed.

(** C4.  A call with [stream] true in which the selected wrapper returns
    response [r] and reports [n] used tokens stores [r] in [ctx.stream]
    and [n] in [ctx.input_tokens], sets the output of the item to the
    empty string with [ai_name] through [ctx.set_output], and returns
    [True].  The other fields of the item keep their values. *)
Theorem call_stream_stores_stream self context extra w r w1 n w2 :
  let ctx := ctx_of empty_ctx context in
  let wn := wrapper_for (select_sub_mode (BridgeContext.model context)) in
  let run := call empty_ctx self context extra w in
  BridgeContext.stream context = true ->
  send (wrapper_of self wn) (send_args_of empty_ctx context) w
    = (inr r, w1) ->
  get_used_tokens (wrapper_of self wn) w1 = (inr n, w2) ->
  run.1 = inr true /\
  CtxItem.stream (item run.2) = r /\
  CtxItem.input_tokens (item run.2) = n /\
  CtxItem.output (item run.2) = PyStr "" /\
  CtxItem.output_name (item run.2) = CtxItem.output_name ctx /\
  outputs (events run.2) = [(PyStr "", CtxItem.output_name ctx)] /\
  CtxItem.input (item run.2) = CtxItem.input ctx /\
  CtxItem.input_name (item run.2) = CtxItem.input_name ctx /\
  CtxItem.output_tokens (item run.2) = CtxItem.output_tokens ctx.
Proof.
  intros ctx wn run Hstream Hsend Hused. subst run.
  call_cases. fold ctx. fold wn. rewrite Hsend, Hused, Hstream.
  by cbn.
Qed.


(** C9.  A call in which the selected wrapper's [send] raises [e] hands
    [e] to the debug logger of the window and re-raises the same [e];
    nothing after the [try] block is reached: there is no
    [ctx.set_output], [ctx.stream] and [ctx.input_tokens] are not
    assigned, and the item is left as it was. *)
Theorem call_send_raises self context extra w e w1 :
  let ctx := ctx_of empty_ctx context in
  let wn := wrapper_for (select_sub_mode (BridgeContext.model context)) in
  let args := send_args_of empty_ctx context in
  let run := call empty_ctx self context extra w in
  send (wrapper_of self wn) args w = (inl e, w1) ->
  run.1 = inl e /\
  events run.2 = [Send wn args; DebugLog e] /\
  world run.2 = debug_log self e w1 /\
  item run.2 = ctx.
Proof.
  intros ctx wn args run Hsend. subst run.
  call_cases. fold ctx. fold wn. fold args. by rewrite Hsend.
Qed.

(** C5.  [Chain.call] is deterministic relative to the wrappers.  Take
    two runs on the same bridge context, with any two chains started in
    any two worlds (and any [extra]).  If the [send] of the selected
    wrapper gives the same answer in both runs (the same response, or the
    same exception) and, when it returns, the following
    [get_used_tokens] reports the same count in both, then both runs
    have the same outcome, make the same calls with the same data, and
    leave the context item in the same state. *)
Theorem call_deterministic self1 self2 context extra1 extra2 w1 w2 :
  let wn := wrapper_for (select_sub_mode (BridgeContext.model context)) in
  let args := send_args_of empty_ctx context in
  let sent1 := send (wrapper_of self1 wn) args w1 in
  let sent2 := send (wrapper_of self2 wn) args w2 in
  let run1 := call empty_ctx self1 context extra1 w1 in
  let run2 := call empty_ctx self2 context extra2 w2 in
  sent1.1 = sent2.1 ->
  (forall r, sent1.1 = inr r ->
     (get_used_tokens (wrapper_of self1 wn) sent1.2).1 =
     (get_used_tokens (wrapper_of self2 wn) sent2.2).1) ->
  run1.1 = run2.1 /\
  events run1.2 = events run2.2 /\
  item run1.2 = item run2.2.
Proof.
  intros wn args sent1 sent2 run1 run2 Hsend Hused.
  subst run1 run2. call_cases. fold wn. fold args.
  fold sent1. fold sent2.
  destruct sent1 as [a1 v1] eqn:E1, sent2 as [a2 v2] eqn:E2.
  cbn [fst snd] in Hsend, Hused. subst a2.
  destruct a1 as [e|r]; [done|].
  specialize (Hused r eq_refl).
  destruct (get_used_tokens _ v1) as [n1 u1].
  destruct (get_used_tokens _ v2) as [n2 u2].
  cbn [fst] in Hused. subst n2.
  destruct n1 as [e|n]; [done|].
  destruct (BridgeContext.stream context); [done|].
  destruct (is_none r); [done|].
  destruct wn; [destruct (getattr_content r)|]; done.
Qed.

(** C6, as amended.  The outcome of [Chain.call] depends on its bridge
    context only through the prompt, the system prompt, the model, the
    streaming flag, the history, and the two speaker names
    ([input_name], [output_name]) of the context item it carries (the
    empty item when [ctx] is [None]).  Two bridge contexts that agree on
    these, with any [extra], yield the same return value or exception,
    the same calls with the same data on the wrappers, the logger and
    [ctx.set_output], the same final world, and the same writes to their
    context items. *)
Theorem call_depends_on_five_and_names self c1 c2 extra1 extra2 w :
  let run1 := call empty_ctx self c1 extra1 w in
  let run2 := call empty_ctx self c2 extra2 w in
  agree_on_five c1 c2 ->
  CtxItem.input_name (ctx_of empty_ctx c1) =
    CtxItem.input_name (ctx_of empty_ctx c2) ->
  CtxItem.output_name (ctx_of empty_ctx c1) =
    CtxItem.output_name (ctx_of empty_ctx c2) ->
  run1.1 = run2.1 /\
  events run1.2 = events run2.2 /\
  world run1.2 = world run2.2 /\
  exists ws,
    item run1.2 = apply_writes ws (ctx_of empty_ctx c1) /\
    item run2.2 = apply_writes ws (ctx_of empty_ctx c2).
Proof.
  intros run1 run2 (Hp & Hs & Hm & Hst & Hh) Hin Hout. subst run1 run2.
  assert (send_args_of empty_ctx c1 = send_args_of empty_ctx c2) as Hargs.
  { unfold send_args_of. by rewrite Hp, Hs, Hm, Hst, Hh, Hin, Hout. }
  call_cases. rewrite Hargs, Hm, Hst, Hout.
  set (wn := wrapper_for _). set (args := send_args_of _ _).
  set (name := CtxItem.output_name _).
  destruct (send _ args w) as [[e|r] v]; [by repeat split; exists []|].
  destruct (get_used_tokens _ v) as [[e|n] u]; [by repeat split; exists []|].
  destruct (BridgeContext.stream c2).
  { repeat split.
    by exists [WriteStream r; WriteInputTokens n;
               WriteOutput (PyStr "") name]. }
  destruct (is_none r); [by repeat split; exists []|].
  destruct wn; [destruct (getattr_content r) as [e|c]|].
  - by repeat split; exists [].
  - repeat split. by exists [WriteOutput c name].
  - repeat split. by exists [WriteOutput r name].
Qed.

End ChainFacts.

(** * Properties of the mode controller *)

Section ModeFacts.
Import ModeController.

Context {Rest : Type} (env : @Env Rest).

Implicit Types (w : @Window Rest) (s : @state Rest) (mode : string).

(** Split on the two attributes [Mode.set] tests in assistant mode. *)
Ltac case_attrs :=
  repeat match goal with
  | |- context [match ctx_current ?x with _ => _ end] =>
      destruct (ctx_current x)
  | |- context [match ctx_assistant ?x with _ => _ end] =>
      destruct (ctx_assistant x)
  end.

(** [Mode.set] appends to the log it is given and is otherwise
    independent of it. *)
Lemma set_log_app mode s :
  log (set env mode s).2 =
    (log s ++ log (set env mode (mkState (window s) [])).2)%list
  /\ window (set env mode s).2 =
       window (set env mode (mkState (window s) [])).2.
Proof.
  unfold set, when, bind, invoke, read, ret.
  destruct (String.eqb mode "assistant"); cbn.
  - case_attrs; cbn; rewrite <- ?app_assoc; by cbn.
  - rewrite <- ?app_assoc. by cbn.
Qed.

(** While the chat input is generating, [Mode.select] does nothing. *)
Lemma select_locked idx s :
  generating (window s) = true -> select env idx s = (tt, s).
Proof.
  intros H. unfold select, change_locked, bind, read. by rewrite H.
Qed.

(** Otherwise it resolves the name, applies it and dispatches the
    event. *)
Lemma select_unlocked idx s :
  generating (window s) = false ->
  select env idx s =
  let mode := modes_get_by_idx env idx (window s) in
  let s1 :=
    (set env mode
         (mkState (window s) (log s ++ [ModesGetByIdx idx]))).2 in
  let ev := mkEvent MODE_SELECT {[ "value" := PyStr mode ]} in
  (tt, mkState (dispatcher_dispatch env ev (window s1))
               (log s1 ++ [Dispatch ev])).
Proof.
  intros H. unfold select, change_locked, read, bind, invoke.
  rewrite H. cbn [window log].
  by destruct (set env _ _) as [[] s1].
Qed.

(** C7.  When the mode change is not locked (the chat input is not
    generating), [Mode.select(idx)] resolves the mode name with
    [modes.get_by_idx(idx)], applies it with [Mode.set], and then
    dispatches a [MODE_SELECT] event whose ['value'] field is that mode
    name: these are the calls it makes, in this order, and the window it
    leaves is the one the dispatcher returns from the window left by
    [Mode.set]. *)
Theorem select_dispatches_mode (idx : Z) w :
  let mode := modes_get_by_idx env idx w in
  let applied := (set env mode (mkState w [])).2 in
  let run := (select env idx (mkState w [])).2 in
  generating w = false ->
  exists ev,
    log run = ([ModesGetByIdx idx] ++ log applied ++ [Dispatch ev])%list /\
    name ev = MODE_SELECT /\
    data ev !! "value" = Some (PyStr mode) /\
    window run = dispatcher_dispatch env ev (window applied).
Proof.
  intros mode applied run Hidle.
  exists (mkEvent MODE_SELECT {[ "value" := PyStr mode ]}).
  subst run. rewrite select_unlocked by done. cbn [snd log window app].
  destruct (set_log_app mode (mkState w [ModesGetByIdx idx])) as [Hl Hw].
  cbn [window log] in Hl, Hw. fold mode. rewrite Hl, Hw. fold applied.
  rewrite <- app_assoc. by repeat split.
Qed.

(** C10.  For every mode name, [Mode.set(mode)] makes exactly three
    writes to the configuration, one after the other: the name under
    ['mode'], then the empty string under ['model'] and under ['preset'].
    Nothing is tested in between, so the three keys hold these values in
    the window handed to the updates that follow, whichever the mode. *)
Theorem set_resets_model_and_preset mode w :
  let run := (set env mode (mkState w [])).2 in
  let writes :=
    [ConfigSet "mode" (PyStr mode); ConfigSet "model" (PyStr "");
     ConfigSet "preset" (PyStr "")] in
  List.filter is_config_set (log run) = writes /\
  exists pre post w1,
    log run = (pre ++ writes ++ post)%list /\
    config w1 !! "mode" = Some (PyStr mode) /\
    config w1 !! "model" = Some (PyStr "") /\
    config w1 !! "preset" = Some (PyStr "") /\
    window run = after_updates env mode w1.
Proof.
  intros run writes. subst run writes.
  unfold set, after_updates, when, bind, invoke, read, ret.
  destruct (String.eqb mode "assistant") eqn:E; cbn.
  - case_attrs; cbn; (split; [done|]);
      match goal with
      | |- context [attachment_update env ?x] =>
          eexists [PresetsSelectDefault; _], _, x
      end;
      (split; [cbn; reflexivity|]); cbn; by simplify_map_eq.
  - split; [done|].
    match goal with
    | |- context [attachment_update env ?x] => eexists [], _, x
    end.
    split; [cbn; reflexivity|]. cbn; by simplify_map_eq.
Qed.

End ModeFacts.

(** * The properties on the sample objects *)

Module Instances.
Import ChainCore Log Sample.

(** C1 on a chain whose chat wrapper raises and whose completion wrapper
    answers, with four models: one listing both sub-modes, one listing
    only ['completion'], one listing neither, one without a ['mode']
    key. *)
Lemma call_selects_wrapper_witness :
  (run_mixed_chat.1 = inl boom /\
   world run_mixed_chat.2 = 1000%Z /\
   (sends (events run_mixed_chat.2)).*1 = [Chat]) /\
  (exists a,
     sends (events run_mixed_completion.2) = [(Completion, a)] /\
     sent_through chain_mixed completion_ok a world0 run_mixed_completion)
  /\
  (select_sub_mode other_model = "chat" /\ run_mixed_other.1 = inl boom) /\
  (select_sub_mode bare_model = "chat" /\ run_mixed_bare.1 = inl boom).
Proof.
  split; [|split; [|split]].
  - destruct (proj1 (call_selects_wrapper empty_ctx chain_mixed
                       (request chat_model false) None world0)
                    (LcList ["chat"; "completion"]) eq_refl eq_refl)
      as (a & Hs & Ht).
    unfold sent_through in Ht. cbn in Ht. destruct Ht as [H1 H2].
    split; [exact H1|]. split; [exact H2|].
    unfold run_mixed_chat. rewrite Hs. reflexivity.
  - exact (proj1 (proj2 (call_selects_wrapper empty_ctx chain_mixed
                           (request completion_model false) None world0))
                 (LcList ["completion"]) eq_refl eq_refl eq_refl).
  - destruct (proj2 (proj2 (call_selects_wrapper empty_ctx chain_mixed
                              (request other_model false) None world0)))
      as (H & a & _ & Ht).
    { right. exists (LcList ["vision"]). repeat split; reflexivity. }
    unfold sent_through in Ht. cbn in Ht. exact (conj H (proj1 Ht)).
  - destruct (proj2 (proj2 (call_selects_wrapper empty_ctx chain_mixed
                              (request bare_model false) None world0)))
      as (H & a & _ & Ht).
    { left. reflexivity. }
    unfold sent_through in Ht. cbn in Ht. exact (conj H (proj1 Ht)).
Defined.


(** C3 as stated fails: with [stream] false, a chat wrapper that answers
    with a [str], which is not [None] and has no [content], makes the
    call raise [AttributeError] without a [set_output]; and a wrapper
    that answers with a message but raises when asked for its token
    count makes the call raise that exception. *)
Lemma call_stores_output_counterexample :
  BridgeContext.stream (request chat_model false) = false /\
  select_sub_mode chat_model = "chat" /\
  (send (chat chain_plain)
        (send_args_of empty_ctx (request chat_model false)) world0
     = (inr (PyStr "done"), 9%Z) /\
   PyStr "done" <> PyNone /\
   run_plain.1 = inl (Exn "AttributeError" "content") /\
   outputs (events run_plain.2) = [] /\
   item run_plain.2 = turn) /\
  (send (chat chain_uncounted)
        (send_args_of empty_ctx (request chat_model false)) world0
     = (inr (PyMessage (PyStr "Hello")), 9%Z) /\
   run_uncounted.1 = inl no_count /\
   outputs (events run_uncounted.2) = []).
Proof.
  split; [reflexivity|]. split; [reflexivity|].
  split; repeat split; try reflexivity. discriminate.
Defined.

(** C3 as amended, under both sub-modes. *)
Lemma call_stores_output_witness :
  (run_chat.1 = inr true /\
   outputs (events run_chat.2) = [(PyStr "Hello", Some "Bot")] /\
   CtxItem.output (item run_chat.2) = PyStr "Hello") /\
  (run_completion.1 = inr true /\
   outputs (events run_completion.2) = [(PyStr "done", Some "Bot")] /\
   CtxItem.output (item run_completion.2) = PyStr "done").
Proof.
  split.
  - destruct (call_stores_output empty_ctx chain_ok
                (request chat_model false) None world0
                (PyMessage (PyStr "Hello")) 9%Z 9%Z 9%Z (PyStr "Hello"))
      as (H1 & H2 & _ & H3 & _);
      [reflexivity | reflexivity | reflexivity | discriminate | reflexivity
      | intros E; vm_compute in E; discriminate | ].
    exact (conj H1 (conj H2 H3)).
  - destruct (call_stores_output empty_ctx chain_ok
                (request completion_model false) None world0
                (PyStr "done") 9%Z 9%Z 9%Z (PyStr "done"))
      as (H1 & H2 & _ & H3 & _);
      [reflexivity | reflexivity | reflexivity | discriminate
      | intros E; vm_compute in E; discriminate | reflexivity | ].
    exact (conj H1 (conj H2 H3)).
Defined.

(** C4 on a streamed chat request. *)
Lemma call_stream_stores_stream_witness :
  BridgeContext.stream (request chat_model true) = true /\
  run_stream.1 = inr true /\
  CtxItem.stream (item run_stream.2) = PyStream ["Hel"; "lo"] /\
  CtxItem.input_tokens (item run_stream.2) = 9%Z /\
  CtxItem.output (item run_stream.2) = PyStr "" /\
  CtxItem.output_name (item run_stream.2) = Some "Bot".
Proof.
  split; [reflexivity|].
  destruct (call_stream_stores_stream empty_ctx chain_ok
              (request chat_model true) None world0
              (PyStream ["Hel"; "lo"]) 9%Z 9%Z 9%Z)
    as (H1 & H2 & H3 & H4 & H5 & _);
    [reflexivity | reflexivity | reflexivity | ].
  exact (conj H1 (conj H2 (conj H3 (conj H4 H5)))).
Defined.


(** C9 on a wrapper whose [send] raises. *)
Lemma call_send_raises_witness :
  run_raises.1 = inl boom /\
  logged (events run_raises.2) = [boom] /\
  outputs (events run_raises.2) = [] /\
  item run_raises.2 = turn.
Proof.
  destruct (call_send_raises empty_ctx chain_raises
              (request chat_model false) None world0 boom world0 eq_refl)
    as (H1 & H2 & _ & H3).
  split; [exact H1|]. unfold run_raises. rewrite H2.
  split; [reflexivity|]. split; [reflexivity|exact H3].
Defined.

(** C5 on two chains that differ in their logger, in the wrapper that is
    not selected and in the world they start from. *)
Lemma call_deterministic_witness :
  run_chat.1 = run_other_chain.1 /\
  events run_chat.2 = events run_other_chain.2 /\
  item run_chat.2 = item run_other_chain.2.
Proof.
  apply (call_deterministic empty_ctx chain_ok chain_other
           (request chat_model false) None None world0 5%Z).
  - reflexivity.
  - intros r _. reflexivity.
Defined.

(** C6 as stated fails: two bridge contexts with the same prompt, system
    prompt, model, streaming flag and history, whose context items name
    the assistant differently, make [send] and [ctx.set_output] receive
    different data. *)
Lemma call_five_fields_counterexample :
  agree_on_five (request chat_model false)
                (request_other_bot chat_model false) /\
  (sends (events run_chat.2)).*2 ≫= (fun a => [SendArgs.ai_name a])
    = [Some "Bot"] /\
  (sends (events run_other_bot.2)).*2 ≫= (fun a => [SendArgs.ai_name a])
    = [Some "Robot"] /\
  outputs (events run_chat.2) <> outputs (events run_other_bot.2).
Proof.
  split; [by repeat split|].
  split; [reflexivity|]. split; [reflexivity|].
  vm_compute. discriminate.
Defined.

(** C6 as amended, on two bridge contexts whose items agree on the
    speaker names only. *)
Lemma call_depends_on_five_and_names_witness :
  agree_on_five (request chat_model false)
                (request_other_input chat_model false) /\
  run_chat.1 = run_other_input.1 /\
  events run_chat.2 = events run_other_input.2.
Proof.
  split; [by repeat split|].
  destruct (call_depends_on_five_and_names empty_ctx chain_ok
              (request chat_model false)
              (request_other_input chat_model false) None None world0)
    as (H1 & H2 & _); [by repeat split | reflexivity | reflexivity |].
  exact (conj H1 H2).
Defined.

Import ModeController.

(** C7 on the sample window: row 3 of the list is the assistant mode. *)
Lemma select_dispatches_mode_witness :
  generating window0 = false /\
  exists ev,
    log (select env0 3 (mkState window0 [])).2 =
      ([ModesGetByIdx 3] ++
       log (set env0 "assistant" (mkState window0 [])).2 ++
       [Dispatch ev])%list /\
    name ev = MODE_SELECT /\
    data ev !! "value" = Some (PyStr "assistant") /\
    window (select env0 3 (mkState window0 [])).2 =
      dispatcher_dispatch env0 ev
        (window (set env0 "assistant" (mkState window0 [])).2).
Proof.
  split; [reflexivity|].
  exact (select_dispatches_mode env0 3%Z window0 eq_refl).
Defined.


(** Python's [in] on the three kinds of values. *)
Example py_in_samples :
  py_in "chat" (LcList ["completion"; "chat"]) = true /\
  py_in "chat" (LcList ["completion"]) = false /\
  py_in "chat" (LcStr "chat") = true /\
  py_in "chat" (LcArgs [{[ "name" := "chat" ]}]) = false.
Proof. repeat split; reflexivity. Qed.

(** The calls of a streamed chat request. *)
Example run_stream_events :
  events run_stream.2 =
  [Send Chat (send_args_of empty_ctx (request chat_model true));
   GetUsedTokens Chat; SetOutput (PyStr "") (Some "Bot")].
Proof. reflexivity. Qed.

(** A chat answer that is not a message object: reading [content] raises
    after the [try] block, so the exception is not logged. *)
Example run_chat_without_content :
  let run :=
    ChainCore.call empty_ctx
      (ChainCore.mkChain no_log completion_ok completion_ok)
      (request chat_model false) None world0 in
  run.1 = inl (Exn "AttributeError" "content") /\
  logged (events run.2) = [] /\ item run.2 = turn.
Proof. repeat split; reflexivity. Qed.

(** The calls of [Mode.set] in assistant mode and in chat mode. *)
Example set_assistant_log :
  log (set env0 "assistant" (mkState window0 [])).2 =
  [PresetsSelectDefault; AssistantSelectCurrent;
   ConfigSet "mode" (PyStr "assistant"); ConfigSet "model" (PyStr "");
   ConfigSet "preset" (PyStr ""); AttachmentUpdate; CtxUpdateCtx; UiUpdate;
   UiStatus "status.started"; CtxUpdateLabelByCurrent].
Proof. reflexivity. Qed.

Example set_chat_log :
  log (set env0 "chat" (mkState window0 [])).2 =
  [ConfigSet "mode" (PyStr "chat"); ConfigSet "model" (PyStr "");
   ConfigSet "preset" (PyStr ""); AttachmentUpdate; CtxUpdateCtx; UiUpdate;
   UiStatus "status.started"].
Proof. reflexivity. Qed.

(** The updates that follow the reset may write the keys again: in the
    sample environment refreshing the UI picks a model. *)
Example set_chat_config :
  let w := window (set env0 "chat" (mkState window0 [])).2 in
  config w !! "mode" = Some (PyStr "chat") /\
  config w !! "model" = Some (PyStr "default") /\
  config w !! "preset" = Some (PyStr "").
Proof. repeat split; reflexivity. Qed.

(** While an answer is being generated the selection is ignored. *)
Example select_busy :
  select env0 1 (mkState window_busy []) = (tt, mkState window_busy []).
Proof. reflexivity. Qed.

End Instances.

(** * Further properties of [Chain.call] *)

Section ChainMore.
Import ChainCore Log.

Context {World : Type} (empty_ctx : CtxItem.t).

Implicit Types (self : @Chain World) (extra : option (gmap string value))
  (w : World).

(** The shapes a run can take, read off [call_unfold]. *)
Lemma call_shapes self (c : BridgeContext.t) extra w :
  let ctx := ctx_of empty_ctx c in
  let run := call empty_ctx self c extra w in
  (exists out,
     run.1 = inr true /\
     outputs (events run.2) = [(out, CtxItem.output_name ctx)] /\
     logged (events run.2) = []) \/
  (run.1 <> inr true /\ outputs (events run.2) = [] /\ item run.2 = ctx).
Proof.
  intros ctx run. subst run.
  pose proof (call_unfold empty_ctx self c extra w) as H.
  cbv zeta in H. rewrite H. clear H. fold ctx.
  set (wn := wrapper_for _). set (args := send_args_of _ _).
  destruct (send _ args w) as [[e|r] w1]; [by right|].
  destruct (get_used_tokens _ w1) as [[e|n] w2]; [by right|].
  destruct (BridgeContext.stream c); [left; by eexists|].
  destruct (is_none r); [by right|].
  destruct wn; [destruct (getattr_content r)|];
    first [by right | left; by eexists].
Qed.

(** X1.  The return value tells whether the context item was written: a
    call returns [True] exactly when it has called [ctx.set_output], which
    it does at most once; when it returns [False] or raises, [set_output]
    was not called and the item is as it was. *)
Theorem call_true_iff_output_written self (c : BridgeContext.t) extra w :
  let run := call empty_ctx self c extra w in
  (run.1 = inr true <-> length (outputs (events run.2)) = 1) /\
  length (outputs (events run.2)) <= 1 /\
  (run.1 <> inr true -> item run.2 = ctx_of empty_ctx c).
Proof.
  intros run.
  destruct (call_shapes self c extra w)
    as [(out & H1 & H2 & _) | (H1 & H2 & H3)];
    fold run in H1, H2; rewrite H2; cbn [length].
  - split; [done|]. split; [lia|]. by intros [].
  - fold run in H3. repeat split; try done; lia.
Qed.


(** X3.  An exception raised after the [try] block is not logged: when a
    chat response that is not [None] has no [content] attribute (and the
    wrapper has reported its token count), the [AttributeError]
    propagates, the debug logger is not called, [ctx.set_output] is not
    called and the item is as it was. *)
Theorem call_content_error_not_logged self (c : BridgeContext.t) extra w
    r w1 n w2 e :
  let run := call empty_ctx self c extra w in
  BridgeContext.stream c = false ->
  select_sub_mode (BridgeContext.model c) = "chat" ->
  send (chat self) (send_args_of empty_ctx c) w = (inr r, w1) ->
  get_used_tokens (chat self) w1 = (inr n, w2) ->
  r <> PyNone ->
  getattr_content r = inl e ->
  run.1 = inl e /\
  logged (events run.2) = [] /\
  outputs (events run.2) = [] /\
  item run.2 = ctx_of empty_ctx c.
Proof.
  intros run Hstream Hsub Hsend Hused Hr He. subst run.
  pose proof (call_unfold empty_ctx self c extra w) as H.
  cbv zeta in H. rewrite H. clear H.
  rewrite Hsub. cbn [wrapper_for String.eqb wrapper_of].
  change (wrapper_of self (wrapper_for "chat")) with (chat self).
  rewrite Hsend, Hused, Hstream.
  assert (is_none r = false) as -> by (by destruct r).
  by rewrite He.
Qed.

End ChainMore.

(** * Further properties of the mode controller *)

Section ModeMore.
Import ModeController ModeDefaults.

Context {Rest : Type} (modes_get_default : @Window Rest -> value).

Implicit Types (s : @ModeController.state Rest).

Lemma mode_is_set_test (w : @Window Rest) :
  mode_is_set w <->
  is_none (config_get "mode" w) || is_empty_str (config_get "mode" w)
    = false.
Proof.
  unfold mode_is_set. destruct (config_get "mode" w) as [|m| |]; cbn;
    try (split; [done|by intros _; split]).
  - split; [by intros [[] _]|done].
  - destruct m; cbn; [split; [by intros [_ []]|done]|].
    split; [done|by intros _; split].
Qed.

(** X4.  [Mode.select_default] never replaces a configured mode: when
    [config.get('mode')] is neither [None] nor the empty string it makes
    no call and changes nothing.  Otherwise its only effect is one write
    of [modes.get_default()] under ['mode'].  In both cases every other
    configuration key and the rest of the window stay as they were. *)
Theorem select_default_keeps_mode s :
  let s' := (select_default modes_get_default s).2 in
  (mode_is_set (window s) -> s' = s) /\
  (~ mode_is_set (window s) ->
     let d := modes_get_default (window s) in
     config (window s') !! "mode" = Some d /\
     log s' = (log s ++ [ConfigSet "mode" d])%list) /\
  (forall k, k <> "mode" ->
     config (window s') !! k = config (window s) !! k) /\
  generating (window s') = generating (window s) /\
  rest (window s') = rest (window s).
Proof.
  intros s'. subst s'.
  unfold select_default, bind, read, invoke, ret. cbn [fst snd window].
  destruct (is_none _ || is_empty_str _) eqn:E; cbn [snd window log].
  - split; [intros H; apply mode_is_set_test in H; congruence|].
    split; [intros _; split; [apply lookup_insert_eq|done]|].
    split; [intros k Hk; cbn; by rewrite lookup_insert_ne|done].
  - split; [intros _; by destruct s|].
    split; [intros H; by apply mode_is_set_test in E|done].
Qed.

(** X5.  When [modes.get_default()] answers a name (not [None], not the empty
    string), [Mode.select_default] is idempotent: after one call a mode is
    configured, and a second call makes no further call and changes
    nothing. *)
Theorem select_default_idempotent s :
  let d := modes_get_default (window s) in
  let s1 := (select_default modes_get_default s).2 in
  d <> PyNone -> d <> PyStr "" ->
  mode_is_set (window s1) /\
  select_default modes_get_default s1 = (tt, s1).
Proof.
  intros d s1 Hn He.
  assert (mode_is_set (window s1)) as Hset.
  { subst s1. unfold select_default, bind, read, invoke, ret.
    cbn [fst snd window].
    destruct (is_none _ || is_empty_str _) eqn:E; cbn [snd window].
    - unfold mode_is_set, config_get, config_set. cbn [config].
      rewrite lookup_insert_eq. by cbn.
    - by apply mode_is_set_test. }
  split; [done|].
  apply mode_is_set_test in Hset.
  unfold select_default at 1, bind, read, ret. cbn [fst snd].
  by rewrite Hset.
Qed.

(** X6.  [Mode.reset_current] clears the current prompt and the two speaker
    names: afterwards [config.get] answers [None] for ['prompt'],
    ['ai_name'] and ['user_name'].  Every other key, the mode, the model
    and the preset among them, keeps its value, and resetting twice is the
    same as resetting once. *)
Theorem reset_current_clears s :
  let w' := window (reset_current s).2 in
  config_get "prompt" w' = PyNone /\
  config_get "ai_name" w' = PyNone /\
  config_get "user_name" w' = PyNone /\
  (forall k, k <> "prompt" -> k <> "ai_name" -> k <> "user_name" ->
     config w' !! k = config (window s) !! k) /\
  window (reset_current (reset_current s).2).2 = w'.
Proof.
  intros w'. subst w'.
  unfold reset_current, bind, invoke, config_get, config_set.
  cbn [fst snd window config].
  repeat split; try by simplify_map_eq.
  - intros k H1 H2 H3. by simplify_map_eq.
  - f_equal. apply map_eq. intros k.
    destruct (decide (k = "user_name")) as [->|]; [by simplify_map_eq|].
    destruct (decide (k = "ai_name")) as [->|]; [by simplify_map_eq|].
    destruct (decide (k = "prompt")) as [->|]; by simplify_map_eq.
Qed.

End ModeMore.

(** * The temperature hook *)

Section TemperatureFacts.
Import ModeTemperature.

Context {F Rest : Type} (div100 : Z -> option F)
  (presets_save : string -> @Window F Rest -> @Window F Rest).

Implicit Types (w : @Window F Rest).

(** X7.  A call of [Mode.hook_global_temperature] that does not come from
    the slider is ignored: nothing is written and nothing is saved.  A
    call from the slider whose [value / 100] overflows raises
    [OverflowError] before anything is written.  Any other call from the
    slider makes exactly one write to the configuration, of
    [value / 100] under ['temperature'], and makes it first; when no
    preset is selected ([config.get('preset')] is [None] or empty) or the
    selected id is not among the presets, that write is all it does:
    every other configuration key and the presets are as before and
    [presets.save] is not called. *)
Theorem hook_temperature_without_preset key (value : Z) caller w :
  let run := hook_global_temperature div100 presets_save key value caller w in
  (caller <> "slider" -> run = (inr tt, (w, []))) /\
  (caller = "slider" -> div100 value = None ->
     run = (inl overflow, (w, []))) /\
  (forall f, caller = "slider" -> div100 value = Some f ->
     run.1 = inr tt /\
     List.filter is_config_set run.2.2 = [ConfigSet "temperature" (CFloat f)]
     /\
     head run.2.2 = Some (ConfigSet "temperature" (CFloat f)) /\
     (config_get "preset" w = CNone \/ config_get "preset" w = CStr "" \/
      (exists id, config_get "preset" w = CStr id /\ items w !! id = None) ->
        run.2.2 = [ConfigSet "temperature" (CFloat f)] /\
        config run.2.1 !! "temperature" = Some (CFloat f) /\
        (forall k, k <> "temperature" ->
           config run.2.1 !! k = config w !! k) /\
        items run.2.1 = items w)).
Proof.
  intros run. subst run. unfold hook_global_temperature.
  split; [|split].
  - intros H. apply String.eqb_neq in H. by rewrite H.
  - intros -> H. cbn [String.eqb Ascii.eqb Bool.eqb negb]. by rewrite H.
  - intros f -> Hf. cbn [String.eqb Ascii.eqb Bool.eqb negb]. rewrite Hf.
    assert (config_get "preset" (config_set "temperature" (CFloat f) w)
            = config_get "preset" w) as ->
      by (unfold config_get, config_set; cbn; by rewrite lookup_insert_ne).
    split; [|split; [|split]].
    + destruct (config_get "preset" w) as [|id|]; try done.
      destruct (String.eqb id ""); [done|].
      by destruct (items _ !! id).
    + destruct (config_get "preset" w) as [|id|]; try done.
      destruct (String.eqb id ""); [done|].
      by destruct (items _ !! id).
    + destruct (config_get "preset" w) as [|id|]; try done.
      destruct (String.eqb id ""); [done|].
      by destruct (items _ !! id).
    + intros H.
      assert (forall k, k <> "temperature" ->
                config (config_set "temperature" (CFloat f) w) !! k
                = config w !! k) as Hframe
        by (intros k Hk; cbn; by rewrite lookup_insert_ne).
      destruct H as [-> | [-> | (id & -> & Hid)]];
        cbn [String.eqb]; try (cbn; by rewrite lookup_insert_eq).
      destruct (String.eqb id ""); [cbn; by rewrite lookup_insert_eq|].
      cbn [items config_set]. rewrite Hid. cbn.
      by rewrite lookup_insert_eq.
Qed.

(** X8.  A call from the slider, with a [value / 100] that does not
    overflow, while an existing preset [id] is selected stores the same
    temperature under ['temperature'] and in that preset, leaves every
    other preset and every other configuration key as they were, and
    then calls [presets.save(id)] once, on a window where the
    configuration and the preset agree. *)
Theorem hook_temperature_updates_preset key (value : Z) w f id preset :
  let t := CFloat f in
  let run := hook_global_temperature div100 presets_save key value
                                     "slider" w in
  div100 value = Some f ->
  config_get "preset" w = CStr id -> id <> "" ->
  items w !! id = Some preset ->
  exists w2,
    run = (inr tt,
           (presets_save id w2,
            [ConfigSet "temperature" t; PresetsSave id])) /\
    config_get "temperature" w2 = t /\
    items w2 !! id = Some (assign_temperature t preset) /\
    (forall j, j <> id -> items w2 !! j = items w !! j) /\
    (forall k, k <> "temperature" -> config w2 !! k = config w !! k) /\
    rest w2 = rest w.
Proof.
  intros t run Hf Hp Hid Hitem. subst run t.
  set (t := CFloat f).
  unfold hook_global_temperature.
  cbn [String.eqb Ascii.eqb Bool.eqb negb]. rewrite Hf. fold t.
  assert (config_get "preset" (config_set "temperature" t w) = CStr id)
    as -> by (unfold config_get, config_set in *; cbn;
              by rewrite lookup_insert_ne).
  apply String.eqb_neq in Hid. rewrite Hid.
  cbn [items config_set]. rewrite Hitem.
  eexists. split; [reflexivity|].
  unfold config_get. cbn. rewrite !lookup_insert_eq.
  repeat split; try done.
  - intros j Hj. by rewrite lookup_insert_ne.
  - intros k Hk. by rewrite lookup_insert_ne.
Qed.

End TemperatureFacts.

(** * Properties of the indexes controller *)

(** ** Splitting the list of modes *)

Section SplitFacts.
Import IdxController.

Lemma split_not_nil s : str_split_comma s <> [].
Proof.
  destruct s as [|c s]; cbn; [done|].
  destruct (Ascii.eqb c ","); [done|].
  by destruct (str_split_comma s).
Qed.

(** A piece of a split holds no comma. *)
Lemma split_no_comma s :
  Forall (fun p => has_char "," p = false) (str_split_comma s).
Proof.
  induction s as [|c s IH]; cbn; [by repeat constructor|].
  destruct (Ascii.eqb c ",") eqn:E; [by constructor|].
  destruct (str_split_comma s) as [|p ps] eqn:Es;
    [by destruct (split_not_nil s)|].
  inversion IH as [|? ? Hp Hps]; subst.
  constructor; [cbn; by rewrite E|done].
Qed.

(** Every character of a piece is a character of the string that was
    split. *)
Lemma split_chars ch s :
  has_char ch s = false ->
  Forall (fun p => has_char ch p = false) (str_split_comma s).
Proof.
  induction s as [|c s IH]; cbn; [by repeat constructor|].
  intros H. apply orb_false_iff in H as [Hc Hs]. specialize (IH Hs).
  destruct (Ascii.eqb c ","); [by constructor|].
  destruct (str_split_comma s) as [|p ps]; cbn.
  - repeat constructor. cbn. by rewrite Hc.
  - inversion IH; subst. constructor; [cbn; by rewrite Hc|done].
Qed.

Lemma remove_spaces_no_space s : has_char " " (str_remove_spaces s) = false.
Proof.
  induction s as [|c s IH]; cbn; [done|].
  destruct (Ascii.eqb c " ") eqn:E; [done|]. cbn. by rewrite E.
Qed.

(** Removing the spaces leaves a string without spaces alone. *)
Lemma remove_spaces_id s :
  has_char " " s = false -> str_remove_spaces s = s.
Proof.
  induction s as [|c s IH]; cbn; [done|].
  intros H. apply orb_false_iff in H as [-> Hs]. by rewrite IH.
Qed.

(** Joining the pieces of a split with commas gives the string back. *)
Lemma join_split s : join_comma (str_split_comma s) = s.
Proof.
  induction s as [|c s IH]; cbn [str_split_comma]; [done|].
  destruct (str_split_comma s) as [|p ps] eqn:Es;
    [by destruct (split_not_nil s)|].
  destruct (Ascii.eqb c ",") eqn:E.
  - apply Ascii.eqb_eq in E as ->.
    change (join_comma (EmptyString :: p :: ps))
      with (String "," (join_comma (p :: ps))).
    by rewrite IH.
  - destruct ps as [|p' ps'].
    + cbn in IH |- *. by rewrite IH.
    + change (join_comma (String c p :: p' :: ps'))
        with (String c (p ++ String "," (join_comma (p' :: ps')))).
      change (join_comma (p :: p' :: ps'))
        with (p ++ String "," (join_comma (p' :: ps')))%string in IH.
      by rewrite IH.
Qed.

Lemma split_piece n :
  has_char "," n = false -> str_split_comma n = [n].
Proof.
  induction n as [|c n IH]; cbn; [done|].
  intros H. apply orb_false_iff in H as [-> Hn]. by rewrite IH.
Qed.

Lemma split_app_comma n rest :
  has_char "," n = false ->
  str_split_comma (n ++ String "," rest) = n :: str_split_comma rest.
Proof.
  induction n as [|c n IH]; [done|]. cbn [has_char].
  intros H. apply orb_false_iff in H as [Hc Hn].
  change (String c n ++ String "," rest)%string
    with (String c (n ++ String "," rest)).
  cbn [str_split_comma]. by rewrite Hc, IH.
Qed.

(** Splitting a comma-joined list of names that hold no comma gives the
    names back. *)
Lemma split_join names :
  names <> [] ->
  Forall (fun n => has_char "," n = false) names ->
  str_split_comma (join_comma names) = names.
Proof.
  induction names as [|n names IH]; [done|]. intros _ H.
  inversion H as [|? ? Hn Hns]; subst.
  destruct names as [|n' names]; [by apply split_piece|].
  change (join_comma (n :: n' :: names))
    with (n ++ String "," (join_comma (n' :: names)))%string.
  rewrite split_app_comma by done. by rewrite IH.
Qed.

End SplitFacts.

(** ** Automatic indexing *)

Section IdxAuto.
Import IdxController IdxLog.

Context {Meta Rest : Type} (env : @Env Meta Rest).

Implicit Types (s : @state Meta Rest) (mode : string).

Lemma auto_idx_allowed_state mode s : (auto_idx_allowed mode s).2 = s.
Proof.
  unfold auto_idx_allowed, bind, read, ret, raise, config_get.
  cbn [fst snd].
  destruct (config (this s) !! _) as [[| | |t|]|]; cbn; try done.
  by destruct (bool_decide _).
Qed.

(** X9.  [Idx.auto_idx_allowed] is a query: it makes no call and changes
    nothing.  It answers [False] when ['llama.idx.auto.modes'] is absent
    or [None], and raises [AttributeError] when the value stored there is
    not a [str]. *)
Theorem auto_idx_allowed_query mode s :
  let v := config (this s) !! "llama.idx.auto.modes" in
  (auto_idx_allowed mode s).2 = s /\
  (v = None \/ v = Some CfgNone ->
     (auto_idx_allowed mode s).1 = inr false) /\
  (forall x, v = Some x -> x <> CfgNone -> (forall t, x <> CfgStr t) ->
     (auto_idx_allowed mode s).1 = inl (Exn "AttributeError" "replace")).
Proof.
  intros v. subst v.
  unfold auto_idx_allowed, bind, read, ret, raise, config_get.
  cbn [fst snd].
  split; [|split].
  - apply auto_idx_allowed_state.
  - by intros [-> | ->].
  - intros x -> Hn Ht. destruct x; cbn; try done. by destruct (Ht s0).
Qed.

(** X10.  When the setting, once its spaces are removed, is a comma-separated
    list of names, [Idx.auto_idx_allowed] answers whether the mode is one
    of the names: the spaces written around the names do not count. *)
Theorem auto_idx_allowed_names mode s setting names :
  config (this s) !! "llama.idx.auto.modes" = Some (CfgStr setting) ->
  str_remove_spaces setting = join_comma names ->
  names <> [] ->
  Forall (fun n => has_char "," n = false) names ->
  auto_idx_allowed mode s = (inr (bool_decide (mode ∈ names)), s).
Proof.
  intros Hcfg Hjoin Hne Hnames.
  unfold auto_idx_allowed, bind, read, ret, config_get. cbn [fst snd].
  rewrite Hcfg. cbn. rewrite Hjoin, split_join by done.
  by destruct (bool_decide _).
Qed.

(** An allowed mode is one of the pieces of the setting. *)
Lemma allowed_mode_piece mode s :
  (auto_idx_allowed mode s).1 = inr true ->
  exists setting,
    config (this s) !! "llama.idx.auto.modes" = Some (CfgStr setting) /\
    mode ∈ str_split_comma (str_remove_spaces setting).
Proof.
  unfold auto_idx_allowed, bind, read, ret, raise, config_get.
  cbn [fst snd].
  destruct (config (this s) !! _) as [[| | |t|]|]; cbn; try done.
  destruct (bool_decide _) eqn:E; [|done]. intros _.
  apply bool_decide_eq_true in E. by exists t.
Qed.

(** X11.  A mode is allowed only if its name holds no space and no comma: the
    spaces are removed from the setting, not from the mode, so a name
    written with a space is never matched. *)
Theorem auto_idx_allowed_no_space mode s :
  (auto_idx_allowed mode s).1 = inr true ->
  has_char " " mode = false /\ has_char "," mode = false /\
  exists setting,
    config (this s) !! "llama.idx.auto.modes" = Some (CfgStr setting).
Proof.
  intros H. destruct (allowed_mode_piece mode s H) as (t & Ht & Hin).
  pose proof (split_no_comma (str_remove_spaces t)) as Hc.
  pose proof (split_chars " " _ (remove_spaces_no_space t)) as Hs.
  rewrite Forall_forall in Hc, Hs.
  split; [by apply Hs|]. split; [by apply Hc|]. by exists t.
Qed.

(** [Idx.on_ctx_end] as one case analysis: the [has] tests fold into the
    [None] that [config.get] answers for an absent key. *)
Lemma on_ctx_end_unfold ctx (mode : option string) sync s :
  on_ctx_end env ctx mode sync s =
  match
    match mode with
    | Some m => (auto_idx_allowed m s).1
    | None => inr true
    end
  with
  | inl e => (inl e, s)
  | inr false => (inr tt, s)
  | inr true =>
      if stop (this s) then (inr tt, s)
      else if truthy (config_get "llama.idx.auto" (this s)) then
        match ctx_current (this s) with
        | Some id =>
            let asked := mkState (this s) (log s ++ [GetMetaById id]) in
            match ctx_get_meta_by_id env id (this s) with
            | Some meta =>
                let idx := auto_index (this s) in
                (inr tt,
                 mkState (indexer_index_ctx_realtime env meta idx sync
                            (this s))
                         (log s ++ [GetMetaById id;
                                    IndexCtxRealtime meta idx sync]))
            | None => (inr tt, asked)
            end
        | None => (inr tt, s)
        end
      else (inr tt, s)
  end.
Proof.
  unfold on_ctx_end. unfold bind at 1.
  assert (match mode with
          | Some m =>
              bind (auto_idx_allowed m) (fun allowed => ret (negb allowed))
          | None => ret false
          end s =
          (match match mode with
                 | Some m => (auto_idx_allowed m s).1
                 | None => inr true
                 end with
           | inl e => inl e
           | inr b => inr (negb b)
           end, s)) as ->.
  { destruct mode as [m|]; [|done]. unfold bind, ret.
    pose proof (auto_idx_allowed_state m s) as Hs.
    destruct (auto_idx_allowed m s) as [[e|b] s']; cbn in Hs; by subst s'. }
  destruct (match mode with Some m => _ | None => _ end) as [e|[]];
    cbn [negb]; [done| |done].
  unfold bind at 1. unfold read at 1. cbn [fst snd].
  destruct (stop (this s)); [done|].
  unfold config_has, config_get, auto_index, bind, read, ret, ask, invoke.
  cbn [fst snd this log].
  destruct (config (this s) !! "llama.idx.auto") as [v|] eqn:Ev.
  - rewrite bool_decide_eq_true_2 by by eexists. cbn. rewrite Ev. cbn.
    destruct (truthy v); [|done].
    destruct (config (this s) !! "llama.idx.auto.index") as [i|] eqn:Ei.
    + rewrite bool_decide_eq_true_2 by by eexists. cbn. rewrite Ei. cbn.
      destruct (ctx_current (this s)); [|done]. cbn.
      destruct (ctx_get_meta_by_id env _ _); [|done].
      cbn. by rewrite <- app_assoc.
    + rewrite bool_decide_eq_false_2 by by intros []. cbn.
      destruct (ctx_current (this s)); [|done]. cbn.
      destruct (ctx_get_meta_by_id env _ _); [|done].
      cbn. by rewrite <- app_assoc.
  - by rewrite bool_decide_eq_false_2 by by intros [].
Qed.

(** X12.  [Idx.on_ctx_end] does nothing at all (no call, no change) when the
    generation was stopped by hand, when the mode it is given is not
    allowed, when automatic indexing is off (['llama.idx.auto'] absent or
    false), or when no context is loaded. *)
Theorem on_ctx_end_skips ctx (mode : option string) sync s :
  stop (this s) = true \/
  (exists m, mode = Some m /\ (auto_idx_allowed m s).1 = inr false) \/
  truthy (config_get "llama.idx.auto" (this s)) = false \/
  ctx_current (this s) = None ->
  (on_ctx_end env ctx mode sync s).2 = s.
Proof.
  intros H. rewrite on_ctx_end_unfold.
  destruct (match mode with Some m => _ | None => _ end) as [e|[]] eqn:E;
    [done| |done].
  destruct H as [-> | [(m & -> & Hm) | [-> | ->]]]; [done|congruence| |].
  - by destruct (stop (this s)).
  - destruct (stop (this s)); [done|].
    by destruct (truthy (config_get "llama.idx.auto" (this s))).
Qed.

(** X13.  Otherwise it starts one realtime indexing job: when the mode is
    allowed or not given, the generation was not stopped, automatic
    indexing is on and the loaded context has a meta object, the only
    calls are the lookup of that meta and
    [indexer.index_ctx_realtime(meta, idx, sync)], where [idx] is the
    index configured under ['llama.idx.auto.index'] and ["base"] when that
    key is absent. *)
Theorem on_ctx_end_indexes ctx (mode : option string) sync s id meta :
  let idx := auto_index (this s) in
  mode = None \/
    (exists m, mode = Some m /\ (auto_idx_allowed m s).1 = inr true) ->
  stop (this s) = false ->
  truthy (config_get "llama.idx.auto" (this s)) = true ->
  ctx_current (this s) = Some id ->
  ctx_get_meta_by_id env id (this s) = Some meta ->
  on_ctx_end env ctx mode sync s =
  (inr tt,
   mkState (indexer_index_ctx_realtime env meta idx sync (this s))
           (log s ++ [GetMetaById id; IndexCtxRealtime meta idx sync])).
Proof.
  intros idx Hmode Hstop Hauto Hctx Hmeta. rewrite on_ctx_end_unfold.
  assert (match mode with
          | Some m => (auto_idx_allowed m s).1
          | None => inr true
          end = inr true) as ->
    by (by destruct Hmode as [-> | (m & -> & ->)]).
  by rewrite Hstop, Hauto, Hctx, Hmeta.
Qed.

(** X14.  A mode whose name holds a space is never indexed automatically,
    whatever the configuration: [Idx.on_ctx_end] then makes no call and
    changes nothing. *)
Theorem on_ctx_end_mode_with_space ctx m sync s :
  has_char " " m = true ->
  (on_ctx_end env ctx (Some m) sync s).2 = s.
Proof.
  intros Hsp. rewrite on_ctx_end_unfold.
  destruct (auto_idx_allowed m s).1 as [e|[]] eqn:E; [done| |done].
  apply allowed_mode_piece in E as (t & _ & Hin).
  pose proof (split_chars " " _ (remove_spaces_no_space t)) as Hs.
  rewrite Forall_forall in Hs. specialize (Hs m Hin). congruence.
Qed.

End IdxAuto.

(** ** Selecting an index *)

Section IdxSelect.
Import IdxController IdxLog.

Context {Meta Rest : Type} (env : @Env Meta Rest).

Implicit Types (s : @state Meta Rest) (t : @Idx Rest).

(** The controller and the configuration agree on the current index. *)
Lemma set_in_sync idx t :
  let t' := assign_current_idx idx (config_set "llama.idx.current" idx t) in
  config_get "llama.idx.current" t' = idx /\
  current_idx t' = idx /\
  (forall k, k <> "llama.idx.current" -> config t' !! k = config t !! k) /\
  locked t' = locked t /\ stop t' = stop t /\
  ctx_current t' = ctx_current t /\ rest t' = rest t.
Proof.
  cbn. unfold config_get. cbn. rewrite lookup_insert_eq.
  repeat split; try done. intros k Hk. by rewrite lookup_insert_ne.
Qed.

(** X15.  [Idx.set_by_idx] on a row that does not resolve ([get_by_idx] answers
    [None]) writes nothing.  On a row that resolves to [idx] it does what
    [Idx.set(idx)] does: afterwards [config.get('llama.idx.current')] and
    [self.current_idx] are both [idx], and every other configuration key
    and attribute is as before. *)
Theorem set_by_idx_sync (row : Z) s :
  let idx := core_idx_get_by_idx env row (this s) in
  let s' := (set_by_idx env row s).2 in
  (idx = CfgNone -> this s' = this s) /\
  (idx <> CfgNone ->
     this s' = this (set idx s).2 /\
     config_get "llama.idx.current" (this s') = idx /\
     current_idx (this s') = idx) /\
  (forall k, k <> "llama.idx.current" ->
     config (this s') !! k = config (this s) !! k) /\
  locked (this s') = locked (this s).
Proof.
  intros idx s'. subst s'.
  unfold set_by_idx, set, do_config_set, bind, ask, invoke, assign, ret.
  cbn [fst snd this log]. fold idx.
  destruct (set_in_sync idx (this s)) as (H1 & H2 & H3 & H4 & _).
  cbv zeta in H1, H2, H3, H4.
  destruct idx eqn:E; cbn [cfg_is_none fst snd this];
    (split; [done|]); (split; [try done; by intros _|]);
    first [by split | by rewrite <- E in *].
Qed.

(** X16.  While the controller is locked, [Idx.select] and [Idx.select_by_id]
    do nothing: no call, no write.  Unlocked, [Idx.select] on a row that
    does not resolve writes nothing either, but still refreshes the UI. *)
Theorem select_guarded (row : Z) (id : cfg_value) s :
  (locked (this s) = true ->
     select env row s = (inr tt, s) /\
     select_by_id env id s = (inr tt, s)) /\
  (locked (this s) = false ->
   core_idx_get_by_idx env row (this s) = CfgNone ->
     select env row s =
     (inr tt, mkState (ui_update env (this s))
                      (log s ++ [GetByIdx row; UiUpdate]))).
Proof.
  unfold select, select_by_id, change_locked, set_by_idx.
  unfold bind, read, ask, invoke, ret. cbn [fst snd this log].
  split.
  - intros ->. by split.
  - intros -> ->. cbn. by rewrite <- app_assoc.
Qed.

(** X17.  Unlocked, [Idx.select_by_id(id)] writes [id] under
    ['llama.idx.current'], sets [self.current_idx] to it and then
    refreshes the UI: these are its two calls, and the state handed to the
    UI has the configuration and the controller in agreement on [id],
    every other key and attribute being as before. *)
Theorem select_by_id_syncs (id : cfg_value) s :
  locked (this s) = false ->
  exists t,
    select_by_id env id s =
    (inr tt, mkState (ui_update env t)
                     (log s ++ [ConfigSet "llama.idx.current" id; UiUpdate]))
    /\ config_get "llama.idx.current" t = id
    /\ current_idx t = id
    /\ (forall k, k <> "llama.idx.current" ->
          config t !! k = config (this s) !! k)
    /\ locked t = false.
Proof.
  intros Hl.
  exists (assign_current_idx id (config_set "llama.idx.current" id (this s))).
  destruct (set_in_sync id (this s)) as (H1 & H2 & H3 & H4 & _).
  cbv zeta in H1, H2, H3, H4.
  split; [|by rewrite H4].
  unfold select_by_id, change_locked, do_config_set.
  unfold bind, read, invoke, assign, ret. cbn [fst snd this log].
  rewrite Hl. cbn. by rewrite <- app_assoc.
Qed.

(** X18.  [Idx.select_default] (and so [Idx.refresh]) never writes the
    configuration.  When an index is configured it makes no call and
    changes nothing.  When none is configured and [get_default_idx]
    answers [d], the controller takes [d] as its current index, but
    [config.get('llama.idx.current')] still answers [None]: the default
    is not persisted. *)
Theorem select_default_not_persisted s :
  let d := core_idx_get_default_idx env (this s) in
  let s' := (refresh env s).2 in
  config (this s') = config (this s) /\
  (config_get "llama.idx.current" (this s) <> CfgNone -> s' = s) /\
  (config_get "llama.idx.current" (this s) = CfgNone -> d <> CfgNone ->
     current_idx (this s') = d /\
     config_get "llama.idx.current" (this s') = CfgNone /\
     log s' = (log s ++ [GetDefaultIdx])%list).
Proof.
  intros d s'. subst s' d.
  unfold refresh, select_default, bind, read, ask, assign, ret.
  cbn [fst snd this log].
  destruct (config_get "llama.idx.current" (this s)) eqn:E;
    cbn [cfg_is_none];
    try (split; [done|]; split; [by destruct s|done]).
  destruct (core_idx_get_default_idx env (this s)) eqn:Ed; cbn;
    (split; [done|]); (split; [done|]); intros _ Hd; try done;
    by repeat split.
Qed.

End IdxSelect.

(** ** Setting up and refreshing *)

Section IdxSetup.
Import IdxController IdxLog.

Context {Meta Rest : Type} (env : @Env Meta Rest).

Implicit Types (s : @state Meta Rest) (P : @call Meta -> Prop)
  (I Q R : @Idx Rest -> Prop).

Lemma steps_ret P I Q R {A} (a : A) :
  (forall t, I t -> Q t) -> steps P I Q R (@ret Meta Rest A a).
Proof.
  intros HQ s Hs. exists (inr a), (this s), []. rewrite app_nil_r.
  split; [by destruct s|]. split; [done|by apply HQ].
Qed.

Lemma steps_read P I Q R {A} (f : @Idx Rest -> A) :
  (forall t, I t -> Q t) -> steps P I Q R (@read Meta Rest A f).
Proof.
  intros HQ s Hs. exists (inr (f (this s))), (this s), [].
  rewrite app_nil_r. split; [by destruct s|]. split; [done|by apply HQ].
Qed.

Lemma steps_assign P I Q R (f : @Idx Rest -> @Idx Rest) :
  (forall t, I t -> Q (f t)) -> steps P I Q R (@assign Meta Rest f).
Proof.
  intros HQ s Hs. exists (inr tt), (f (this s)), []. rewrite app_nil_r.
  split; [done|]. split; [done|by apply HQ].
Qed.

Lemma steps_invoke P I Q R c (f : @Idx Rest -> @Idx Rest) :
  P c -> (forall t, I t -> Q (f t)) -> steps P I Q R (invoke c f).
Proof.
  intros HP HQ s Hs. exists (inr tt), (f (this s)), [c].
  split; [done|]. split; [by repeat constructor|by apply HQ].
Qed.

Lemma steps_invoke_try P I Q R c (f : @Idx Rest -> (exn + unit) * @Idx Rest) :
  P c ->
  (forall t, I t ->
     match (f t).1 with inr _ => Q (f t).2 | inl _ => R (f t).2 end) ->
  steps P I Q R (invoke_try c f).
Proof.
  intros HP HQ s Hs. exists (f (this s)).1, (f (this s)).2, [c].
  split; [done|]. split; [by repeat constructor|by apply HQ].
Qed.

Lemma steps_ask P I Q R {A} c (f : @Idx Rest -> A) :
  P c -> (forall t, I t -> Q t) -> steps P I Q R (ask c f).
Proof.
  intros HP HQ s Hs. exists (inr (f (this s))), (this s), [c].
  split; [done|]. split; [by repeat constructor|by apply HQ].
Qed.

Lemma steps_bind P I J Q R {A B} (m : M A) (k : A -> M B) :
  steps P I J R m -> (forall a, steps P J Q R (k a)) ->
  steps P I Q R (bind m k).
Proof.
  intros Hm Hk s Hs. unfold bind.
  destruct (Hm s Hs) as ([e|a] & t & l & -> & Hl & HJ).
  - by exists (inl e), t, l.
  - destruct (Hk a (mkState t (log s ++ l)) HJ)
      as (r & t' & l' & -> & Hl' & HQ).
    exists r, t', (l ++ l')%list. cbn [log]. rewrite app_assoc.
    split; [done|]. split; [by apply Forall_app|done].
Qed.

(** [Idx.update] keeps whatever the calls on the widgets keep, and none
    of its calls writes the configuration or starts an indexing job. *)
Lemma update_steps I :
  (forall v t, I t -> I (assign_current_idx v t)) ->
  (forall v t, I t -> I (toolbox_indexes_update env v t).2) ->
  (forall v t, I t -> I (indexes_select_set_value env v t).2) ->
  steps quiet I I I (update env).
Proof.
  intros Hassign Hlist Hselect.
  unfold update, select_default, update_list, select_current.
  repeat first
    [ apply (steps_bind _ I I); [|intros ?]
    | apply steps_read | apply steps_ret | apply steps_assign
    | apply steps_ask
    | apply steps_invoke_try;
        [done | intros ? ?; match goal with
                           | |- match ?x with _ => _ end => destruct x eqn:?
                           end]
    | match goal with |- steps _ _ _ _ (if ?b then _ else _) => destruct b end
    | done | by auto
    | match goal with
      | E : (?f ?v ?t).1 = _ |- I (?f ?v ?t).2 => by auto
      end ].
Qed.

(** The part of [Idx.setup] that follows [common.setup()]. *)
Lemma setup_tail_steps I Q R :
  (forall t, I (assign_locked true t)) ->
  (forall v t, I t -> I (assign_current_idx v t)) ->
  (forall v t, I t -> I (toolbox_indexes_update env v t).2) ->
  (forall v t, I t -> I (indexes_select_set_value env v t).2) ->
  (forall t, Q (assign_locked false t)) ->
  (forall t, I t -> R t) ->
  steps quiet (fun _ => True) Q R (setup_tail env).
Proof.
  intros Hlock Hassign Hlist Hselect HQ HR. unfold setup_tail.
  apply (steps_bind _ _ (fun _ => True)); [by apply steps_read|intros v].
  apply (steps_bind _ _ (fun _ => True)).
  { destruct (negb _); [by apply steps_assign|by apply steps_ret]. }
  intros _.
  apply (steps_bind _ _ I); [by apply steps_assign|intros _].
  apply (steps_bind _ _ I).
  { intros s Hs.
    destruct (update_steps I Hassign Hlist Hselect s Hs)
      as (r & t & l & E & Hl & Hr).
    exists r, t, l. split; [done|]. split; [done|].
    destruct r; [by apply HR|done]. }
  intros _. by apply steps_assign.
Qed.

(** X19.  [Idx.setup] (and so [Idx.reload]) starts with
    [core.idx.load()], [indexer.update_explorer()] and [common.setup()],
    and none of its calls writes the configuration or starts an indexing
    job.  It takes the lock before [Idx.update] and releases it only
    after [Idx.update] has returned: when it returns, the controller is
    unlocked, whatever the lock was before; when a call on a widget made
    by [Idx.update] raises, the exception leaves [Idx.setup] and
    [self.locked = False] is not reached, so, the widgets not touching
    the lock themselves, the controller stays locked. *)
Theorem setup_releases_lock_on_return s :
  let run := reload env s in
  (exists l,
     log run.2 =
       (log s ++ [CoreIdxLoad; UpdateExplorer; CommonSetup] ++ l)%list /\
     Forall quiet l) /\
  (run.1 = inr tt -> locked (this run.2) = false) /\
  ((forall v t, locked (toolbox_indexes_update env v t).2 = locked t) ->
   (forall v t, locked (indexes_select_set_value env v t).2 = locked t) ->
   forall e, run.1 = inl e -> locked (this run.2) = true).
Proof.
  intros run.
  pose (s3 := mkState
          (common_setup env
             (indexer_update_explorer env (core_idx_load env (this s))))
          (((log s ++ [CoreIdxLoad]) ++ [UpdateExplorer]) ++ [CommonSetup])).
  assert (run = setup_tail env s3) as -> by reflexivity.
  assert (steps quiet (fun _ => True) (fun t => locked t = false)
                (fun _ => True) (setup_tail env)) as H1
    by (by apply (setup_tail_steps (fun _ => True))).
  destruct (H1 s3 I) as (r & t & l & E & Hl & Hr).
  rewrite E. cbn [fst snd this log]. split; [|split].
  - exists l. subst s3. cbn [log]. by rewrite <- !app_assoc.
  - intros ->. exact Hr.
  - intros Hlist Hselect e ->.
    assert (steps quiet (fun _ => True) (fun _ => True)
                  (fun t => locked t = true) (setup_tail env)) as H2.
    { apply (setup_tail_steps (fun t => locked t = true)); try done.
      - intros v t' H. by rewrite Hlist.
      - intros v t' H. by rewrite Hselect. }
    destruct (H2 s3 I) as (r' & t' & l' & E' & _ & Hr').
    rewrite E in E'. by injection E' as <- <- _.
Qed.

End IdxSetup.

(** ** Indexing by row and the label of the last indexing *)

Section IdxActions.
Import IdxController IdxLog.

Context {Meta Rest : Type} (env : @Env Meta Rest).

Implicit Types (s : @state Meta Rest).

(** X20.  The three indexing actions of the list resolve the row first.  For a
    row that does not resolve ([get_by_idx] answers [None]) none of them
    calls the indexer.  For a row that resolves to [idx] each starts
    exactly one job on [idx], and indexing the whole database starts from
    timestamp 0. *)
Theorem idx_actions_resolve_row (row : Z) s :
  let idx := core_idx_get_by_idx env row (this s) in
  let asked := (log s ++ [GetByIdx row])%list in
  (idx = CfgNone ->
     idx_db_update_by_idx env row s = (inr tt, mkState (this s) asked) /\
     idx_db_all_by_idx env row s = (inr tt, mkState (this s) asked) /\
     idx_files_all_by_idx env row s = (inr tt, mkState (this s) asked)) /\
  (idx <> CfgNone ->
     idx_db_update_by_idx env row s =
       (inr tt, mkState (indexer_index_ctx_current env idx (this s))
                        (asked ++ [IndexCtxCurrent idx])) /\
     idx_db_all_by_idx env row s =
       (inr tt, mkState (indexer_index_ctx_from_ts env idx 0 (this s))
                        (asked ++ [IndexCtxFromTs idx 0])) /\
     idx_files_all_by_idx env row s =
       (inr tt, mkState (indexer_index_all_files env idx (this s))
                        (asked ++ [IndexAllFiles idx]))).
Proof.
  intros idx asked. subst asked.
  unfold idx_db_update_by_idx, idx_db_all_by_idx, idx_files_all_by_idx.
  unfold bind, ask, invoke, ret. cbn [fst snd this log]. fold idx.
  split; [by intros ->|].
  intros H. by destruct idx.
Qed.

(** X21.  [Idx.after_index] refreshes the file explorer and then sets the
    label of the last indexing to [trans('idx.last') + ": "] followed by
    the time, which reads ["---"] when ['llama.idx.db.last'] is absent
    and when the timestamp stored there is not positive; a positive
    timestamp is formatted.  When the formatting raises (a timestamp out
    of range), or when the key holds [None] and [int] raises
    [TypeError], the exception leaves [Idx.after_index] after the
    explorer was refreshed, and the label is not set. *)
Theorem after_index_label (idx : option string) s :
  let t := indexer_update_explorer env (this s) in
  let v := config t !! "llama.idx.db.last" in
  let labelled txt :=
    (inr tt, mkState (last_updated_setText env txt t)
                     (log s ++ [UpdateExplorer; SetText txt])) in
  let failed e := (inl e, mkState t (log s ++ [UpdateExplorer])) in
  let dashes := (trans env "idx.last" ++ ": " ++ "---")%string in
  (v = None -> after_index env idx s = labelled dashes) /\
  (forall n, v = Some (CfgInt n) ->
     after_index env idx s =
     if (0 <? n)%Z then
       match strftime_local env n with
       | inr formatted =>
           labelled (trans env "idx.last" ++ ": " ++ formatted)%string
       | inl e => failed e
       end
     else labelled dashes) /\
  (v = Some CfgNone ->
     after_index env idx s =
     failed (Exn "TypeError"
                 "int() argument must be a string or a number")).
Proof.
  intros t v labelled failed dashes. subst v labelled failed dashes.
  unfold after_index, bind, invoke, read, ret, raise, config_has, config_get.
  cbn [fst snd this log]. fold t.
  split; [|split].
  - intros E. rewrite E.
    rewrite bool_decide_eq_false_2 by by intros []. cbn.
    by rewrite <- ?app_assoc.
  - intros n E. rewrite E.
    rewrite bool_decide_eq_true_2 by by eexists. cbn. rewrite ?E. cbn.
    destruct (0 <? n)%Z; cbn; [|by rewrite <- ?app_assoc].
    destruct (strftime_local env n); cbn; by rewrite <- ?app_assoc.
  - intros E. rewrite E.
    rewrite bool_decide_eq_true_2 by by eexists. cbn. by rewrite ?E.
Qed.

End IdxActions.

(** * The further properties on the sample objects *)

Module MoreInstances.
Import Sample MoreSample.

Section OnChain.
Import ChainCore Log.

(** A [None] answer: [False] is returned and the item is as it was. *)
Lemma call_true_iff_output_written_witness :
  run_none.1 <> inr true /\ item run_none.2 = turn.
Proof.
  assert (run_none.1 <> inr true) as H by (vm_compute; discriminate).
  split; [exact H|].
  exact (proj2 (proj2 (call_true_iff_output_written empty_ctx chain_none
                         (request chat_model false) None world0)) H).
Defined.


(** A chat wrapper that answers with a [str]. *)
Lemma call_content_error_not_logged_witness :
  run_plain.1 = inl (Exn "AttributeError" "content") /\
  logged (events run_plain.2) = [] /\
  outputs (events run_plain.2) = [] /\
  item run_plain.2 = turn.
Proof.
  apply (call_content_error_not_logged empty_ctx chain_plain
           (request chat_model false) None world0 (PyStr "done")
           9%Z 9%Z 9%Z).
  - reflexivity.
  - reflexivity.
  - reflexivity.
  - reflexivity.
  - discriminate.
  - reflexivity.
Defined.

End OnChain.

Section OnMode.
Import ModeController ModeDefaults.

(** A configured mode is kept; an absent one is replaced by the
    default. *)
Lemma select_default_keeps_mode_witness :
  (select_default default_mode configured).2 = configured /\
  config (window (select_default default_mode fresh).2) !! "mode"
    = Some (PyStr "chat") /\
  config (window (select_default default_mode fresh).2) !! "prompt"
    = Some (PyStr "You are a bot").
Proof.
  destruct (select_default_keeps_mode default_mode configured)
    as (H1 & _).
  destruct (select_default_keeps_mode default_mode fresh)
    as (_ & H2 & H3 & _).
  split; [apply H1; by split|].
  split.
  - apply H2. intros [H _]. by apply H.
  - rewrite (H3 "prompt") by done. reflexivity.
Defined.

Lemma select_default_idempotent_witness :
  mode_is_set (window (select_default default_mode fresh).2) /\
  select_default default_mode (select_default default_mode fresh).2
    = (tt, (select_default default_mode fresh).2).
Proof.
  apply (select_default_idempotent default_mode fresh); discriminate.
Defined.

(** The mode of the sample window survives a reset. *)
Lemma reset_current_clears_witness :
  config_get "prompt" (window (reset_current fresh).2) = PyNone /\
  config (window (reset_current configured).2) !! "mode"
    = Some (PyStr "chat").
Proof.
  split.
  - exact (proj1 (reset_current_clears fresh)).
  - destruct (reset_current_clears configured) as (_ & _ & _ & H & _).
    rewrite (H "mode") by done. reflexivity.
Defined.

End OnMode.

Section OnIdx.
Import IdxController IdxLog IdxSample.

(** No list of modes configured: nothing is allowed. *)
Lemma auto_idx_allowed_query_witness :
  (auto_idx_allowed "chat"
     (start (mkIdx ∅ (CfgStr "base") false false None tt))).1 = inr false.
Proof.
  apply (proj1 (proj2 (auto_idx_allowed_query "chat"
           (start (mkIdx ∅ (CfgStr "base") false false None tt))))).
  by left.
Defined.

(** The setting ["chat, completion ,langchain"] names three modes. *)
Lemma auto_idx_allowed_names_witness :
  auto_idx_allowed "langchain" (start idx0) = (inr true, start idx0) /\
  auto_idx_allowed "vision" (start idx0) = (inr false, start idx0).
Proof.
  split.
  - apply (auto_idx_allowed_names "langchain" (start idx0)
             "chat, completion ,langchain"
             ["chat"; "completion"; "langchain"]);
      [reflexivity | reflexivity | discriminate | by repeat constructor].
  - apply (auto_idx_allowed_names "vision" (start idx0)
             "chat, completion ,langchain"
             ["chat"; "completion"; "langchain"]);
      [reflexivity | reflexivity | discriminate | by repeat constructor].
Defined.

Lemma auto_idx_allowed_no_space_witness :
  (auto_idx_allowed "completion" (start idx0)).1 = inr true /\
  has_char " " "completion" = false.
Proof.
  assert ((auto_idx_allowed (Meta:=string) "completion" (start idx0)).1
          = inr true) as H by reflexivity.
  split; [exact H|].
  exact (proj1 (auto_idx_allowed_no_space "completion" (start idx0) H)).
Defined.

(** After a manual stop nothing is indexed. *)
Lemma on_ctx_end_skips_witness :
  (on_ctx_end env0 None (Some "chat") false (start idx_stopped)).2
    = start idx_stopped.
Proof.
  apply (on_ctx_end_skips env0 None (Some "chat") false (start idx_stopped)).
  by left.
Defined.

(** An allowed mode with a loaded context: one job on ["base"]. *)
Lemma on_ctx_end_indexes_witness :
  on_ctx_end env0 None (Some "chat") true (start idx0) =
  (inr tt,
   mkState idx0 [GetMetaById 7; IndexCtxRealtime "meta-7" (CfgStr "base") true])
  /\
  on_ctx_end env0 None None false (start idx_docs) =
  (inr tt,
   mkState idx_docs
           [GetMetaById 7; IndexCtxRealtime "meta-7" (CfgStr "docs") false]).
Proof.
  split.
  - apply (on_ctx_end_indexes env0 None (Some "chat") true (start idx0)
             7%Z "meta-7"); try reflexivity.
    right. by exists "chat".
  - apply (on_ctx_end_indexes env0 None None false (start idx_docs)
             7%Z "meta-7"); try reflexivity.
    by left.
Defined.

Lemma on_ctx_end_mode_with_space_witness :
  (on_ctx_end env0 None (Some "lang chain") false (start idx0)).2
    = start idx0.
Proof.
  by apply (on_ctx_end_mode_with_space env0 None "lang chain" false
              (start idx0)).
Defined.

(** Row 1 is the index ["docs"], row 5 does not exist. *)
Lemma set_by_idx_sync_witness :
  this (set_by_idx env0 5 (start idx0)).2 = idx0 /\
  config_get "llama.idx.current" (this (set_by_idx env0 1 (start idx0)).2)
    = CfgStr "docs" /\
  current_idx (this (set_by_idx env0 1 (start idx0)).2) = CfgStr "docs".
Proof.
  split.
  - by apply (proj1 (set_by_idx_sync env0 5 (start idx0))).
  - destruct (proj1 (proj2 (set_by_idx_sync env0 1 (start idx0))))
      as (_ & H1 & H2); [discriminate|].
    exact (conj H1 H2).
Defined.

Lemma select_guarded_witness :
  select env0 1 (start idx_locked) = (inr tt, start idx_locked) /\
  select_by_id env0 (CfgStr "docs") (start idx_locked)
    = (inr tt, start idx_locked) /\
  select env0 5 (start idx0) = (inr tt, mkState idx0 [GetByIdx 5; UiUpdate]).
Proof.
  destruct (select_guarded env0 1 (CfgStr "docs") (start idx_locked))
    as [H _].
  destruct (select_guarded env0 5 CfgNone (start idx0)) as [_ H'].
  destruct (H eq_refl) as [H1 H2].
  split; [exact H1|]. split; [exact H2|]. by apply H'.
Defined.

Lemma select_by_id_syncs_witness :
  locked idx0 = false /\
  exists t,
    select_by_id env0 (CfgStr "docs") (start idx0) =
    (inr tt, mkState t [ConfigSet "llama.idx.current" (CfgStr "docs");
                        UiUpdate]) /\
    config_get "llama.idx.current" t = CfgStr "docs" /\
    current_idx t = CfgStr "docs".
Proof.
  split; [reflexivity|].
  destruct (select_by_id_syncs env0 (CfgStr "docs") (start idx0) eq_refl)
    as (t & H1 & H2 & H3 & _).
  exists t. by repeat split.
Defined.

(** No index is configured in the sample: the default is taken but not
    written. *)
Lemma select_default_not_persisted_witness :
  current_idx (this (refresh env0 (start idx0)).2) = CfgStr "base" /\
  config_get "llama.idx.current" (this (refresh env0 (start idx0)).2)
    = CfgNone.
Proof.
  destruct (select_default_not_persisted env0 (start idx0))
    as (_ & _ & H).
  destruct H as (H1 & H2 & _); [reflexivity|discriminate|].
  exact (conj H1 H2).
Defined.

Lemma idx_actions_resolve_row_witness :
  idx_db_all_by_idx env0 5 (start idx0) = (inr tt, mkState idx0 [GetByIdx 5])
  /\
  idx_db_all_by_idx env0 1 (start idx0)
    = (inr tt, mkState idx0 [GetByIdx 1; IndexCtxFromTs (CfgStr "docs") 0]).
Proof.
  destruct (idx_actions_resolve_row env0 5 (start idx0)) as [H _].
  destruct (idx_actions_resolve_row env0 1 (start idx0)) as [_ H'].
  split.
  - by apply H.
  - apply H'. discriminate.
Defined.

(** Timestamp 0 reads ["---"], a positive one is formatted, and one past
    the year 9999 makes the formatting raise. *)
Lemma after_index_label_witness :
  after_index env0 None (start idx0) =
  (inr tt, mkState idx0 [UpdateExplorer; SetText "idx.last: ---"]) /\
  after_index env0 None (start idx_docs) =
  (inr tt, mkState idx_docs
             [UpdateExplorer; SetText "idx.last: 2024-04-29 07:00:00"]) /\
  after_index env0 None (start idx_far) =
  (inl year_out_of_range, mkState idx_far [UpdateExplorer]).
Proof.
  split; [|split].
  - by apply (proj1 (proj2 (after_index_label env0 None (start idx0))) 0%Z).
  - by apply (proj1 (proj2 (after_index_label env0 None (start idx_docs)))
                1714374000%Z).
  - by apply (proj1 (proj2 (after_index_label env0 None (start idx_far)))
                253402300800%Z).
Defined.

(** With every widget in place setup ends unlocked, even when started
    locked; with the index selector missing it raises and leaves the
    controller locked. *)
Lemma setup_releases_lock_on_return_witness :
  locked (this (reload env0 (start idx_locked)).2) = false /\
  (reload env_no_selector (start idx_configured)).1 = inl no_selector /\
  locked (this (reload env_no_selector (start idx_configured)).2) = true.
Proof.
  destruct (setup_releases_lock_on_return env0 (start idx_locked))
    as (_ & H & _).
  destruct (setup_releases_lock_on_return env_no_selector
              (start idx_configured)) as (_ & _ & H').
  split; [by apply H|]. split; [reflexivity|].
  by apply (H' (fun _ _ => eq_refl) (fun _ _ => eq_refl) no_selector).
Defined.

End OnIdx.

Section OnTemperature.
Import ModeTemperature.

(** A call that does not come from the slider, a slider value too large
    for a float, and a slider call with no preset selected. *)
Lemma hook_temperature_without_preset_witness :
  hook_global_temperature fraction save_nothing "current_temperature" 70
                          "input" presets0 = (inr tt, (presets0, [])) /\
  hook_global_temperature fraction save_nothing "current_temperature"
                          (10 ^ 400) "slider" presets0
    = (inl overflow, (presets0, [])) /\
  items (hook_global_temperature fraction save_nothing
           "current_temperature" 70 "slider" presets_unselected).2.1
    = items presets_unselected.
Proof.
  destruct (hook_temperature_without_preset fraction save_nothing
              "current_temperature" 70 "input" presets0) as [H _].
  destruct (hook_temperature_without_preset fraction save_nothing
              "current_temperature" (10 ^ 400) "slider" presets0)
    as (_ & Hover & _).
  destruct (hook_temperature_without_preset fraction save_nothing
              "current_temperature" 70 "slider" presets_unselected)
    as (_ & _ & H').
  split; [by apply H|]. split; [by apply Hover|].
  destruct (H' (70, 100)%Z eq_refl eq_refl) as (_ & _ & _ & H'').
  destruct H'' as (_ & _ & _ & H''); [by right; left|]. exact H''.
Defined.

(** The slider at 70 with the preset ["coder"] selected. *)
Lemma hook_temperature_updates_preset_witness :
  exists w2,
    hook_global_temperature fraction save_nothing "current_temperature" 70
                            "slider" presets0
      = (inr tt,
         (w2, [ConfigSet "temperature" (CFloat (70, 100)%Z);
               PresetsSave "coder"])) /\
    config_get "temperature" w2 = CFloat (70, 100)%Z /\
    items w2 !! "coder" = Some (mkPreset "Coder" (CFloat (70, 100)%Z)) /\
    items w2 !! "poet" = Some (mkPreset "Poet" (CFloat (3, 2)%Z)).
Proof.
  destruct (hook_temperature_updates_preset fraction save_nothing
              "current_temperature" 70 presets0 (70, 100)%Z "coder"
              (mkPreset "Coder" (CFloat (1, 1)%Z)))
    as (w2 & H1 & H2 & H3 & H4 & _);
    [reflexivity|reflexivity|discriminate|reflexivity|].
  exists w2. split; [exact H1|]. split; [exact H2|]. split; [exact H3|].
  rewrite (H4 "poet") by discriminate. reflexivity.
Defined.

End OnTemperature.

End MoreInstances.
